(** * Country CO2 Emissions Analyzer: the data-flow logic of [app.py]

    A shallow embedding of the model resolution ([load_resources],
    [rebuild_model]) and of the metrics computations of [main]
    ([get_country_data], [calculate_emissions], [get_reduction_targets],
    the current-emissions lookup, the historical peak and the comparison
    snapshot), with the properties the specification states about them.

    Conventions.
    - A pandas [DataFrame] is the list of its rows in row order; every row
      carries its index label, which filtering and sorting preserve.
    - [Per_Capita_CO2_kg] values are binary64 numbers: Rocq's primitive
      [float], whose operations are the IEEE 754 ones numpy uses.
    - Python code that may raise returns an [outcome]; calls to Streamlit
      and to the model are recorded, in order, in a trace of [event]s.
      Exceptions are instances of [Exception], the ones [except Exception]
      catches.
    - The files and scikit-learn are an [Env]: what reading, loading,
      fitting and persisting answer in one run. One run of the bodies of
      [load_resources] and [rebuild_model] is described; the
      [st.cache_resource] decorators, which replay a stored result on later
      calls, are not. *)

From Stdlib Require Import ZArith List String Bool Lia Floats.
From Stdlib Require Import Sorting.Sorted Sorting.Permutation.
Import ListNotations.

Local Open Scope string_scope.
Local Open Scope list_scope.
Local Open Scope Z_scope.

(** ** Python exceptions, outcomes and the trace of calls *)

Module Py.

(** The classes of [Exception] the code distinguishes or can meet. *)
Inductive exn_class :=
| FileNotFoundError
| AttributeError
| IndexError
| KeyError
| ValueError
| OtherException.

(** An instance of [Exception]: its class and [str(e)]. *)
Record exn := Exn { exn_cls : exn_class; exn_str : string }.

Inductive outcome (A : Type) :=
| Return (a : A)
| Raise (e : exn).
Arguments Return {A} a.
Arguments Raise {A} e.

Definition is_FileNotFoundError (e : exn) : bool :=
  match exn_cls e with FileNotFoundError => true | _ => false end.

End Py.
Import Py.

(** ** The emissions table *)

(** One line of [country_emissions.csv]. *)
Record Record_ := mkRecord {
  rec_Country : string;
  rec_Year : Z;
  rec_Per_Capita_CO2_kg : float
}.

(** A row of a [DataFrame]: the index label and the three columns used. *)
Record Row := mkRow {
  label : nat;
  Country : string;
  Year : Z;
  Per_Capita_CO2_kg : float
}.

Definition DataFrame := list Row.

Module Pandas.

(** [pd.read_csv] gives the frame a [RangeIndex]: row [i] has label [i]. *)
Fixpoint with_RangeIndex (start : nat) (recs : list Record_) : DataFrame :=
  match recs with
  | [] => []
  | r :: rest =>
      mkRow start (rec_Country r) (rec_Year r) (rec_Per_Capita_CO2_kg r)
        :: with_RangeIndex (S start) rest
  end.

(** [pd.DataFrame()] *)
Definition DataFrame_ : DataFrame := [].

(** [df.empty] *)
Definition empty (df : DataFrame) : bool :=
  match df with [] => true | _ :: _ => false end.

(** [df[df['Country'] == country]] *)
Definition where_Country (df : DataFrame) (country : string) : DataFrame :=
  filter (fun r => String.eqb (Country r) country) df.

(** [df[df['Year'] == year]] *)
Definition where_Year (df : DataFrame) (year : Z) : DataFrame :=
  filter (fun r => Z.eqb (Year r) year) df.

(** [df.sort_values('Year')]: ascending. Rows with equal years are kept
    in their relative order here; pandas' default sort (quicksort) leaves
    that order open, so the properties below speak of the rows and the
    years of a sorted frame, and of the order of its rows only where the
    years are distinct. *)
Fixpoint insert_by_Year (r : Row) (sorted : DataFrame) : DataFrame :=
  match sorted with
  | [] => [r]
  | x :: rest =>
      if Z.leb (Year r) (Year x) then r :: sorted
      else x :: insert_by_Year r rest
  end.

Definition sort_values_Year (df : DataFrame) : DataFrame :=
  fold_right insert_by_Year [] df.

(** [year in df['Year'].values] *)
Definition Year_values_contain (df : DataFrame) (year : Z) : bool :=
  existsb (fun r => Z.eqb (Year r) year) df.

(** [series.values[0]] *)
Definition values_0 {A : Type} (values : list A) : outcome A :=
  match values with
  | [] => Raise (Exn IndexError "index 0 is out of bounds for axis 0 with size 0")
  | v :: _ => Return v
  end.

(** [df['Year'].max()]: [None] stands for the NaN of an empty column. *)
Definition Year_max (df : DataFrame) : option Z :=
  match df with
  | [] => None
  | r :: rest => Some (fold_left (fun acc x => Z.max acc (Year x)) rest (Year r))
  end.

End Pandas.
Import Pandas.

(** ** [get_country_data] (app.py, lines 131-135) *)

Definition get_country_data (df : option DataFrame) (country : string) : DataFrame :=
  match df with
  | None => DataFrame_
  | Some df => sort_values_Year (where_Country df country)
  end.

(** The dataset invariant of the specification: each (country, year) pair
    occurs once. *)
Definition unique_country_year (df : DataFrame) : Prop :=
  NoDup (map (fun r => (Country r, Year r)) df).

Definition ascending_by_Year : DataFrame -> Prop :=
  StronglySorted (fun a b => Year a <= Year b).

Definition strictly_ascending_by_Year : DataFrame -> Prop :=
  StronglySorted (fun a b => Year a < Year b).

(** ** The fitted model, the outside world and the trace *)

(** A fitted pipeline as the code uses it: [model.predict(frame)] on a frame
    with the columns [Country] and [Year] returns an array of predictions,
    or raises. *)
Record Model := mkModel {
  predict : list (string * Z) -> outcome (list float)
}.

(** What one run meets outside [app.py]: the two files and scikit-learn. *)
Record Env := mkEnv {
  (** [pd.read_csv("country_emissions.csv")] *)
  read_csv : outcome (list Record_);
  (** [joblib.load("country_emissions_model.pkl")] *)
  joblib_load : outcome Model;
  (** [Pipeline([...]).fit(X, y)] on the columns of the given frame *)
  pipeline_fit : DataFrame -> outcome Model;
  (** [joblib.dump(model, "country_emissions_model_fixed.pkl")] *)
  joblib_dump : Model -> outcome unit;
  (** [open("country_emissions.csv", "rb").read()] *)
  open_csv_read : outcome unit
}.

(** The widget values of one interaction. For an empty [country_list] the
    select box yields [None], which equals no [Country] value: any string
    absent from the table stands for it. *)
Record Widgets := mkWidgets {
  selected_country : string;
  analysis_year : Z;
  compare_countries : list string;
  download_clicked : bool
}.

(** One entry of [comparison_data]. *)
Record comparison_entry := mkEntry {
  entry_Country : string;
  entry_Latest_Year : Z;
  entry_Per_Capita_CO2 : float
}.

(** What the page shows. Values that no property below speaks about (the
    global average and what is derived from it, chart styling, the texts
    of the introduction, tips and footer) are not carried; headers carry
    their text without the leading pictogram. *)
Inductive view :=
| Title
| Subheader
| About
| Select_country (country_list : list string)
| Slider_year
| Header (text : string)
| Metric_current (year : Z) (current_emissions : float)
| Metric_vs_global_average
| Metric_peak (peak : float) (peak_years : list Z)
| Trend_chart
| Multiselect_compare (country_list : list string)
| Comparison_chart (comparison_data : list comparison_entry)
| Comparison_table
| Target_chart (targets : list (string * float)) (current_emissions : float)
| Tips
| Download_button
| Footer.

Inductive event :=
| st_error (msg : string)
| st_warning (msg : string)
| st_info (msg : string)
| st_success (msg : string)
| st_render (v : view)
(** a call of [model.predict] with the given input frame *)
| call_predict (input_data : list (string * Z))
(** entering the body of [rebuild_model] with the given frame *)
| call_rebuild_model (emissions_df : DataFrame)
| call_fit
| call_dump.

(** Computations: the trace written so far and the outcome. *)
Definition M (A : Type) : Type := (list event * outcome A)%type.

Definition ret {A} (a : A) : M A := ([], Return a).

Definition bind {A B} (m : M A) (k : A -> M B) : M B :=
  match m with
  | (t, Return a) => let (t', o) := k a in (t ++ t', o)
  | (t, Raise e) => (t, Raise e)
  end.

(** [try: body / except Exception as e: handler e] *)
Definition try_except {A} (body : M A) (handler : exn -> M A) : M A :=
  match body with
  | (t, Return a) => (t, Return a)
  | (t, Raise e) => let (t', o) := handler e in (t ++ t', o)
  end.

Definition emit (ev : event) : M unit := ([ev], Return tt).

Definition lift {A} (o : outcome A) : M A := ([], o).

Definition trace {A} (m : M A) : list event := fst m.
Definition result {A} (m : M A) : outcome A := snd m.

Declare Scope py_scope.
Delimit Scope py_scope with py.
Notation "x <- m ;; k" := (bind m (fun x => k))
  (at level 61, m at next level, right associativity) : py_scope.
Notation "m ;; k" := (bind m (fun _ => k))
  (at level 61, right associativity) : py_scope.
Local Open Scope py_scope.

(** [model.predict(input_data)]; a [None] model has no such attribute. *)
Definition model_predict (model : option Model) (input_data : list (string * Z))
  : M (list float) :=
  match model with
  | None => lift (Raise (Exn AttributeError
                           "'NoneType' object has no attribute 'predict'"))
  | Some m => emit (call_predict input_data) ;; lift (predict m input_data)
  end.

(** ** [calculate_emissions] (app.py, lines 113-128) *)

Definition fallback_emissions : float := 5000.0%float.

Definition calculate_emissions (model : option Model) (country : string) (year : Z)
  : M float :=
  try_except
    (let input_data := [(country, year)] in
     prediction <- model_predict model input_data ;;
     lift (values_0 prediction))
    (fun e =>
       emit (st_error ("Error calculating emissions: " ++ exn_str e)%string) ;;
       ret fallback_emissions).

(** ** [get_reduction_targets] (app.py, lines 138-143)

    The dict, in insertion order. [0x1.3333333333333p-2] and
    [0x1.999999999999ap-4] are the binary64 values of the literals [0.3]
    and [0.1]. *)
Definition get_reduction_targets (current_emissions : float) : list (string * float) :=
  [ ("2030 (SDG Target)", current_emissions * 0.5);
    ("2040", current_emissions * 0x1.3333333333333p-2);
    ("2050 (Net Zero)", current_emissions * 0x1.999999999999ap-4) ]%float.

(** ** Columns of [Per_Capita_CO2_kg]: [max] and [idxmax] (NaN skipped) *)

Module Series.

Local Open Scope float_scope.

(** [series.max()]: the largest value that is not NaN, NaN when there is
    none. Of two values that compare equal ([0.0] and [-0.0]) the later
    is kept, as the reduction [ai >= amax] of bottleneck's [nanmax] does;
    NumPy's own reduction may keep either, and the properties below use
    the maximum through comparisons only, which do not see the sign of a
    zero. *)
Definition nanmax (values : list float) : float :=
  fold_left
    (fun acc x =>
       if is_nan x then acc
       else if is_nan acc then x
       else if acc <=? x then x else acc)
    values nan.

(** The scan of [argmax] over values that are numbers: the best row so
    far is replaced only by a strictly greater one, so the first row
    holding the maximum wins. *)
Fixpoint argmax_scan (best : Row) (rows : DataFrame) : Row :=
  match rows with
  | [] => best
  | r :: rest =>
      if Per_Capita_CO2_kg best <? Per_Capita_CO2_kg r
      then argmax_scan r rest
      else argmax_scan best rest
  end.

(** The rows whose value is not NaN: [skipna=True]. *)
Definition dropna (df : DataFrame) : DataFrame :=
  filter (fun r => negb (is_nan (Per_Capita_CO2_kg r))) df.

(** [df['Per_Capita_CO2_kg'].max()] *)
Definition Per_Capita_max (df : DataFrame) : float :=
  nanmax (map Per_Capita_CO2_kg df).

(** [df['Per_Capita_CO2_kg'].idxmax()]: NaN values are skipped; the label
    of the first row that holds the maximum of the others. It raises on
    an empty column and on a column of NaN only. *)
Definition Per_Capita_idxmax (df : DataFrame) : outcome nat :=
  match df with
  | [] => Raise (Exn ValueError "attempt to get argmax of an empty sequence")
  | _ :: _ =>
      match dropna df with
      | [] => Raise (Exn ValueError "Encountered all NA values")
      | r :: rest => Return (label (argmax_scan r rest))
      end
  end.

(** [df.loc[idx, 'Year']]: the year of the row labelled [idx]; a series
    of years when several rows carry the label. *)
Definition loc_Year (df : DataFrame) (idx : nat) : outcome (list Z) :=
  match filter (fun r => Nat.eqb (label r) idx) df with
  | [] => Raise (Exn KeyError "label not found")
  | rows => Return (map Year rows)
  end.

End Series.
Import Series.

(** [sorted(df['Country'].unique())] *)
Fixpoint unique_from (seen : list string) (values : list string) : list string :=
  match values with
  | [] => []
  | x :: rest =>
      if existsb (String.eqb x) seen then unique_from seen rest
      else x :: unique_from (x :: seen) rest
  end.

Definition unique := unique_from [].

Fixpoint insert_string (x : string) (l : list string) : list string :=
  match l with
  | [] => [x]
  | y :: rest => if String.leb x y then x :: l else y :: insert_string x rest
  end.

Definition sorted (l : list string) : list string := fold_right insert_string [] l.

Definition test_data : list (string * Z) := [("United States", 2020)].

Section App.

Variable env : Env.

(** ** [rebuild_model] (app.py, lines 34-64) *)
Definition rebuild_model (emissions_df : DataFrame) : M (option Model) :=
  emit (call_rebuild_model emissions_df) ;;
  try_except
    (model <- (emit call_fit ;; lift (pipeline_fit env emissions_df)) ;;
     emit call_dump ;;
     lift (joblib_dump env model) ;;
     ret (Some model))
    (fun e =>
       emit (st_error ("Error rebuilding model: " ++ exn_str e)%string) ;;
       ret None).

(** ** [load_resources] (app.py, lines 68-103)

    The result is the triple [(model, emissions_df, country_list)]. *)
Definition load_resources : M (option Model * option DataFrame * list string) :=
  try_except
    (recs <- lift (read_csv env) ;;
     let emissions_df := with_RangeIndex 0 recs in
     let country_list := sorted (unique (map Country emissions_df)) in
     try_except
       (model <- lift (joblib_load env) ;;
        test_prediction <- model_predict (Some model) test_data ;;
        ret (Some model, Some emissions_df, country_list))
       (fun e =>
          emit (st_warning "Original model has issues. Rebuilding model...") ;;
          model <- rebuild_model emissions_df ;;
          match model with
          | None =>
              emit (st_error "Failed to create a working model") ;;
              ret (None, Some emissions_df, country_list)
          | Some _ => ret (model, Some emissions_df, country_list)
          end))
    (fun e =>
       if is_FileNotFoundError e then
         emit (st_error ("Required files not found: " ++ exn_str e)%string) ;;
         emit (st_info "Please ensure 'country_emissions.csv' and 'country_emissions_model.pkl' are in the same directory") ;;
         ret (None, None, [])
       else
         emit (st_error ("Error loading resources: " ++ exn_str e)%string) ;;
         ret (None, None, [])).

(** [init_session]: only fills [st.session_state]; nothing is shown. *)
Definition init_session : M unit := ret tt.

(** ** The parts of [main] (app.py, lines 162-401) *)

(** Lines 216-219: the current emissions of the selected country. *)
Definition main_current_emissions (model : option Model) (country_data : DataFrame)
    (selected_country : string) (analysis_year : Z) : M float :=
  if Year_values_contain country_data analysis_year then
    lift (values_0 (map Per_Capita_CO2_kg (where_Year country_data analysis_year)))
  else
    calculate_emissions model selected_country analysis_year.

(** Lines 231-233: the historical peak and the year shown with it. *)
Definition main_historical_peak (country_data : DataFrame) : M (float * list Z) :=
  let peak := Per_Capita_max country_data in
  idx <- lift (Per_Capita_idxmax country_data) ;;
  years <- lift (loc_Year country_data idx) ;;
  ret (peak, years).

(** Lines 290-300: the loop that fills [comparison_data]. *)
Fixpoint comparison_loop (emissions_df : option DataFrame) (countries : list string)
    (comparison_data : list comparison_entry) : M (list comparison_entry) :=
  match countries with
  | [] => ret comparison_data
  | country :: rest =>
      let country_emissions := get_country_data emissions_df country in
      if negb (empty country_emissions) then
        match Year_max country_emissions with
        | Some latest_year =>
            latest_emissions <-
              lift (values_0 (map Per_Capita_CO2_kg
                                (where_Year country_emissions latest_year))) ;;
            comparison_loop emissions_df rest
              (comparison_data ++ [mkEntry country latest_year latest_emissions])
        | None =>
            (* the NaN of an empty column equals no year: [values[0]] of
               an empty selection *)
            lift (values_0 (map Per_Capita_CO2_kg [])) ;;
            ret comparison_data
        end
      else
        comparison_loop emissions_df rest comparison_data
  end.

(** Lines 280-326: the comparison section. *)
Definition main_comparison (emissions_df : option DataFrame)
    (country_list : list string) (w : Widgets) : M unit :=
  emit (st_render (Header "Country Comparison")) ;;
  emit (st_render (Multiselect_compare country_list)) ;;
  match compare_countries w with
  | [] => ret tt
  | _ :: _ =>
      try_except
        (comparison_data <-
           comparison_loop emissions_df
             ([selected_country w] ++ compare_countries w) [] ;;
         match comparison_data with
         | [] => ret tt
         | _ :: _ =>
             emit (st_render (Comparison_chart comparison_data)) ;;
             emit (st_render Comparison_table)
         end)
        (fun e =>
           emit (st_error ("Error in comparison section: " ++ exn_str e)%string))
  end.

(** Lines 328-358: the reduction targets. *)
Definition main_targets (current_emissions : float) : M unit :=
  emit (st_render (Header "Emissions Reduction Targets")) ;;
  try_except
    (let targets := get_reduction_targets current_emissions in
     emit (st_render (Target_chart targets current_emissions)))
    (fun e =>
       emit (st_error ("Error creating reduction targets chart: " ++ exn_str e)%string)).

(** Lines 371-382: the download button. *)
Definition main_download (w : Widgets) : M unit :=
  emit (st_render (Header "Download Data")) ;;
  try_except
    (lift (open_csv_read env) ;;
     emit (st_render Download_button) ;;
     if download_clicked w then
       emit (st_success "Dataset downloaded successfully!")
     else ret tt)
    (fun e =>
       if is_FileNotFoundError e then
         emit (st_warning "CSV file not found for download")
       else lift (Raise e)).

(** ** [main] *)
Definition main (w : Widgets) : M unit :=
  resources <- load_resources ;;
  let '(model, emissions_df, country_list) := resources in
  match model with
  | None =>
      emit (st_error "Application cannot start without a working model. Please check your data files.")
  | Some _ =>
      init_session ;;
      emit (st_render Title) ;;
      emit (st_render Subheader) ;;
      emit (st_render About) ;;
      emit (st_render (Select_country country_list)) ;;
      emit (st_render Slider_year) ;;
      let country_data := get_country_data emissions_df (selected_country w) in
      (if negb (empty country_data) then
         current_emissions <-
           main_current_emissions model country_data
             (selected_country w) (analysis_year w) ;;
         emit (st_render (Header (selected_country w ++ "'s Emissions Profile")%string)) ;;
         emit (st_render (Metric_current (analysis_year w) current_emissions)) ;;
         emit (st_render Metric_vs_global_average) ;;
         peak <- main_historical_peak country_data ;;
         emit (st_render (Metric_peak (fst peak) (snd peak))) ;;
         emit (st_render (Header "Emissions Trend Analysis")) ;;
         try_except
           (emit (st_render Trend_chart))
           (fun e => emit (st_error ("Error creating chart: " ++ exn_str e)%string)) ;;
         main_comparison emissions_df country_list w ;;
         main_targets current_emissions ;;
         emit (st_render (Header "Climate Action Recommendations")) ;;
         emit (st_render Tips)
       else ret tt) ;;
      main_download w ;;
      emit (st_render Footer)
  end.

End App.

(** ** Predicates used to state the properties *)

(** The dataset holds at least one row of the country. *)
Definition has_records (df : DataFrame) (country : string) : bool :=
  existsb (fun r => String.eqb (Country r) country) df.

(** The entry names a country, the greatest year among the rows of that
    country, and the value stored in a row of that country and year. *)
Definition latest_of (df : DataFrame) (entry : comparison_entry) : Prop :=
  (exists r, In r df /\
             Country r = entry_Country entry /\
             Year r = entry_Latest_Year entry /\
             Per_Capita_CO2_kg r = entry_Per_Capita_CO2 entry) /\
  (forall r, In r df -> Country r = entry_Country entry ->
             Year r <= entry_Latest_Year entry).

(** The persisted artifact loads and answers the smoke test. *)
Definition artifact_usable (env : Env) : bool :=
  match joblib_load env with
  | Raise _ => false
  | Return m =>
      match predict m test_data with
      | Raise _ => false
      | Return _ => true
      end
  end.

Definition is_call_rebuild_model (ev : event) : bool :=
  match ev with call_rebuild_model _ => true | _ => false end.

(** ** The order of binary64 numbers *)

Module FloatOrder.

(** A rank for every number that is not NaN: the comparisons of the
    numbers are the lexicographic comparisons of their ranks. *)
Definition key (x : spec_float) : Z * Z * Z :=
  match x with
  | S754_nan => (0, 0, 0)
  | S754_zero _ => (0, 0, 0)
  | S754_infinity true => (-2, 0, 0)
  | S754_infinity false => (2, 0, 0)
  | S754_finite true m e => (-1, - e, - Zpos m)
  | S754_finite false m e => (1, e, Zpos m)
  end.

Definition lex_lt (a b : Z * Z * Z) : Prop :=
  let '(a1, a2, a3) := a in
  let '(b1, b2, b3) := b in
  a1 < b1 \/ (a1 = b1 /\ (a2 < b2 \/ (a2 = b2 /\ a3 < b3))).

Definition not_nan (x : spec_float) : Prop := x <> S754_nan.

(** [x] is not NaN. *)
Definition number (x : float) : Prop := is_nan x = false.

End FloatOrder.
Import FloatOrder.

(** A row of [country] in the table that holds the maximum of the
    country's values: its value is a number and no value of the country
    is greater. *)
Definition peak_row (df : DataFrame) (country : string) (r : Row) : Prop :=
  In r df /\ Country r = country /\
  number (Per_Capita_CO2_kg r) /\
  forall x, In x df -> Country x = country ->
            (Per_Capita_CO2_kg r <? Per_Capita_CO2_kg x)%float = false.

(** ** Rounding in binary64 multiplication *)

Module Binary64.

(** What [k] right shifts leave of the exact product [P]: the quotient in
    [shr_m], and in the round and sticky bits the place of the remainder
    with respect to half a unit. *)
Definition shr_inv (P k : Z) (mrs : shr_record) : Prop :=
  exists rem,
    0 <= shr_m mrs /\ 0 <= rem < 2 ^ k /\
    P = shr_m mrs * 2 ^ k + rem /\
    (shr_r mrs = true -> 2 ^ k <= 2 * rem) /\
    (shr_r mrs = false -> 2 * rem < 2 ^ k) /\
    (shr_s mrs = false -> 2 * rem = if shr_r mrs then 2 ^ k else 0).

(** The binary64 values of the literals [0.5], [0.3] and [0.1]. *)
Definition SF_half := S754_finite false 4503599627370496 (-53).
Definition SF_0_3 := S754_finite false 5404319552844595 (-54).
Definition SF_0_1 := S754_finite false 7205759403792794 (-56).

(** The outcome [r] of rounding the exact value [P * 2 ^ E] to nearest
    after dropping [n] bits: the rounded mantissa [m1] is within half a
    unit of [P / 2 ^ n]; a mantissa of [2 ^ 53] is renormalised. *)
Definition rounded (P : Z) (E n : Z) (r : spec_float) : Prop :=
  exists m1,
    0 <= m1 <= 2 ^ 53 /\
    2 ^ n * (2 * m1 - 1) <= 2 * P <= 2 ^ n * (2 * m1 + 1) /\
    r = match m1 with
        | Zpos p =>
            if m1 =? 2 ^ 53 then S754_finite false 4503599627370496 (E + n + 1)
            else S754_finite false p (E + n)
        | _ => S754_zero false
        end.

(** [6 * 2 ** -1074], about [3e-323]: from here on the three products
    round to three different numbers. *)
Definition chain_threshold : float := 0x6p-1074%float.

End Binary64.
Import Binary64.

(** ** Scenarios *)

Module Scenario.

Local Open Scope float_scope.

(** The dataset of the specification's scenarios. *)
Definition records_AB : list Record_ :=
  [mkRecord "A" 2019 100.0; mkRecord "B" 2019 300.0].

Definition df_AB : DataFrame := with_RangeIndex 0 records_AB.

(** A model that predicts the same value for every input row. *)
Definition constant_model (v : float) : Model :=
  mkModel (fun input_data => Return (map (fun _ => v) input_data)).

(** A model whose [predict] raises. *)
Definition broken_model : Model :=
  mkModel (fun _ => Raise (Exn AttributeError
                             "'str' object has no attribute 'transform'")).

Definition artifact_absent : outcome Model :=
  Raise (Exn FileNotFoundError
           "[Errno 2] No such file or directory: 'country_emissions_model.pkl'").

(** No persisted model; fitting and persisting succeed. *)
Definition env_rebuild_ok : Env :=
  mkEnv (Return records_AB) artifact_absent
        (fun _ => Return (constant_model 200.0))
        (fun _ => Return tt)
        (Return tt).

(** No persisted model; fitting succeeds, persisting fails. *)
Definition env_dump_fails : Env :=
  mkEnv (Return records_AB) artifact_absent
        (fun _ => Return (constant_model 200.0))
        (fun _ => Raise (Exn OtherException
                           "[Errno 13] Permission denied: 'country_emissions_model_fixed.pkl'"))
        (Return tt).

(** A table in which the value of "B" is missing: an empty cell of the
    file, read as NaN. *)
Definition records_missing : list Record_ :=
  [mkRecord "A" 2019 100.0; mkRecord "B" 2019 nan].

Definition df_missing : DataFrame := with_RangeIndex 0 records_missing.

(** Fitting as scikit-learn answers it: a target column that holds a NaN
    is refused, with the library's message; any other table is fitted. *)
Definition fit_checking_target (v : float) (emissions_df : DataFrame)
  : outcome Model :=
  if existsb (fun r => is_nan (Per_Capita_CO2_kg r)) emissions_df
  then Raise (Exn ValueError "Input y contains NaN.")
  else Return (constant_model v).

(** No persisted model, and a table with a missing value: fitting
    fails. *)
Definition env_fit_fails : Env :=
  mkEnv (Return records_missing) artifact_absent
        (fit_checking_target 200.0)
        (fun _ => Return tt)
        (Return tt).

Definition widgets_A : Widgets := mkWidgets "A" 2019 ["B"] false.

(** A table in which the maximum of "A" occurs in 2001 and in 2000,
    the later year first in the file. *)
Definition records_tie : list Record_ :=
  [mkRecord "A" 2001 5.0; mkRecord "A" 2000 5.0;
   mkRecord "B" 2000 9.0; mkRecord "A" 2002 3.0].

End Scenario.

(** ** Further parts of [app.py] and [fix_model.py] *)

(** *** [get_climate_tips] (app.py, lines 146-159)

    [0x1.3333333333333p+0] is the binary64 value of the literal [1.2];
    [current_emissions > avg_emissions * 1.2] is read as
    [avg_emissions * 1.2 < current_emissions]. *)
Definition tip_reduce (country : string) : string :=
  "🌍 **Reduce energy consumption**: " ++ country ++
  "'s emissions are above average. Consider energy-efficient appliances and renewable energy sources.".

Definition tip_maintain (country : string) : string :=
  "🌿 **Maintain sustainable practices**: " ++ country ++
  " is performing better than average. Continue efforts to reduce emissions.".

Definition general_tips : list string :=
  ["🚗 **Promote electric vehicles**: Transportation is a major contributor to emissions. Support EV infrastructure development.";
   "🌳 **Protect and expand forests**: Natural carbon sinks are crucial for offsetting emissions.";
   "🏭 **Advocate for industrial regulations**: Support policies that require industries to reduce their carbon footprint.";
   "💡 **Educate communities**: Raise awareness about sustainable practices and climate action."].

Definition get_climate_tips (country : string) (current_emissions avg_emissions : float)
  : list string :=
  (if (avg_emissions * 0x1.3333333333333p+0 <? current_emissions)%float
   then [tip_reduce country]
   else [tip_maintain country]) ++ general_tips.

(** [2 ** 1022]: an average up to here times [1.2] is still finite. *)
Definition tips_average_bound : float := 0x1p1022%float.

(** The binary64 value of the literal [1.2]. *)
Definition SF_1_2 := S754_finite false 5404319552844595 (-52).

(** *** The effect of [init_session] on [st.session_state]
    (app.py, lines 106-110) *)

Inductive session_value :=
| Session_list (entries : list comparison_entry)
| Session_str (text : string).

(** [st.session_state]: the keys in the order they were set. *)
Definition session_state := list (string * session_value).

(** [key in st.session_state] *)
Definition session_contains (key : string) (state : session_state) : bool :=
  existsb (fun kv => String.eqb (fst kv) key) state.

(** [st.session_state[key]], [None] standing for the [KeyError]. *)
Fixpoint session_get (key : string) (state : session_state) : option session_value :=
  match state with
  | [] => None
  | (k, v) :: rest => if String.eqb k key then Some v else session_get key rest
  end.

(** [if key not in st.session_state: st.session_state[key] = value] *)
Definition session_setdefault (key : string) (value : session_value)
    (state : session_state) : session_state :=
  if session_contains key state then state else state ++ [(key, value)].

Definition init_session_state (state : session_state) : session_state :=
  session_setdefault "user_location" (Session_str "United States")
    (session_setdefault "comparison_data" (Session_list []) state).

(** *** The defaults of the widgets of [main] *)

(** [options.index(x)] *)
Fixpoint list_index (x : string) (options : list string) : outcome nat :=
  match options with
  | [] => Raise (Exn ValueError (x ++ " is not in list")%string)
  | y :: rest =>
      if String.eqb y x then Return 0%nat
      else match list_index x rest with
           | Return i => Return (S i)
           | Raise e => Raise e
           end
  end.

(** [x in options] *)
Definition list_contains (x : string) (options : list string) : bool :=
  existsb (fun y => String.eqb y x) options.

(** Line 201: the [index] argument of the country select box. *)
Definition select_country_index (country_list : list string) : outcome nat :=
  if list_contains "United States" country_list
  then list_index "United States" country_list
  else Return 0%nat.

(** Line 284: the [default] argument of the comparison multiselect. *)
Definition compare_default (country_list : list string) : list string :=
  if forallb (fun c => list_contains c country_list) ["China"; "India"; "Germany"]
  then ["China"; "India"; "Germany"]
  else [].

(** Lines 264-268: whether the trend chart marks the analysis year as a
    prediction ([analysis_year > country_data['Year'].max()]; the NaN
    of an empty column is above no year). *)
Definition main_prediction_marker (country_data : DataFrame) (analysis_year : Z) : bool :=
  match Year_max country_data with
  | Some latest_year => Z.ltb latest_year analysis_year
  | None => false
  end.

(** *** [fix_model.py]

    The script run once: what it prints and how it ends. It reads the same
    table, fits the same pipeline and writes the same file as
    [rebuild_model], with no handler around them. *)
Definition fix_model (env : Env) : list string * outcome unit :=
  match read_csv env with
  | Raise e => ([], Raise e)
  | Return recs =>
      let emissions_df := with_RangeIndex 0 recs in
      match pipeline_fit env emissions_df with
      | Raise e => ([], Raise e)
      | Return model =>
          match joblib_dump env model with
          | Raise e => ([], Raise e)
          | Return _ => (["Fixed model saved!"], Return tt)
          end
      end
  end.

(** *** The profile of the selected country (app.py, lines 214-369)

    The block [main] runs under [if not country_data.empty], named so
    that properties can speak of it; [main_unfolds] below shows that
    [main] is built from it. *)
Definition main_profile (model : option Model) (emissions_df : option DataFrame)
    (country_list : list string) (w : Widgets) (country_data : DataFrame) : M unit :=
  current_emissions <-
    main_current_emissions model country_data
      (selected_country w) (analysis_year w) ;;
  emit (st_render (Header (selected_country w ++ "'s Emissions Profile")%string)) ;;
  emit (st_render (Metric_current (analysis_year w) current_emissions)) ;;
  emit (st_render Metric_vs_global_average) ;;
  peak <- main_historical_peak country_data ;;
  emit (st_render (Metric_peak (fst peak) (snd peak))) ;;
  emit (st_render (Header "Emissions Trend Analysis")) ;;
  try_except
    (emit (st_render Trend_chart))
    (fun e => emit (st_error ("Error creating chart: " ++ exn_str e)%string)) ;;
  main_comparison emissions_df country_list w ;;
  main_targets current_emissions ;;
  emit (st_render (Header "Climate Action Recommendations")) ;;
  emit (st_render Tips).

(** *** Predicates used to state the further properties *)

Definition is_st_error (ev : event) : bool :=
  match ev with st_error _ => true | _ => false end.

Definition is_call_predict (ev : event) : bool :=
  match ev with call_predict _ => true | _ => false end.

(** Ascending order of strings, neighbour by neighbour. *)
Definition ascending_strings : list string -> Prop :=
  Sorted (fun a b => String.leb a b = true).

(** Every value of the column is NaN. *)
Definition all_nan (df : DataFrame) : Prop :=
  forall r, In r df -> is_nan (Per_Capita_CO2_kg r) = true.

(** A table whose "A" values are all missing. *)
Definition records_nan : list Record_ :=
  [mkRecord "A" 2018 nan; mkRecord "A" 2019 nan].

(** The persisted model loads and predicts. *)
Definition env_artifact_ok : Env :=
  mkEnv (Return Scenario.records_AB)
        (Return (Scenario.constant_model 150.0%float))
        (fun _ => Raise (Exn ValueError "not reached"))
        (fun _ => Return tt)
        (Return tt).

(** The table is missing. *)
Definition env_no_data : Env :=
  mkEnv (Raise (Exn FileNotFoundError
                  "[Errno 2] No such file or directory: 'country_emissions.csv'"))
        Scenario.artifact_absent
        (fun _ => Raise (Exn ValueError "not reached"))
        (fun _ => Return tt)
        (Raise (Exn FileNotFoundError
                  "[Errno 2] No such file or directory: 'country_emissions.csv'")).

(** The table holds only missing values for "A", and the persisted model
    (fitted on an earlier table) loads and predicts: nothing is fitted. *)
Definition env_nan_data : Env :=
  mkEnv (Return records_nan)
        (Return (Scenario.constant_model 150.0%float))
        (Scenario.fit_checking_target 200.0%float)
        (fun _ => Return tt)
        (Return tt).

(** * Properties *)

Section SortValues.

Lemma insert_by_Year_perm r l : Permutation (r :: l) (insert_by_Year r l).
Proof.
  induction l as [|x l IH]; simpl; [reflexivity|].
  destruct (Year r <=? Year x); [reflexivity|].
  rewrite perm_swap. now constructor.
Qed.

Lemma sort_values_Year_perm df : Permutation df (sort_values_Year df).
Proof.
  induction df as [|r df IH]; simpl; [constructor|].
  rewrite <- insert_by_Year_perm. now constructor.
Qed.

Lemma insert_by_Year_sorted r l :
  ascending_by_Year l -> ascending_by_Year (insert_by_Year r l).
Proof.
  unfold ascending_by_Year.
  induction l as [|x l IH]; simpl; intros Hs.
  - repeat constructor.
  - destruct (Z.leb_spec (Year r) (Year x)) as [Hle|Hgt].
    + constructor; [assumption|].
      inversion Hs as [|? ? _ Hall]; subst.
      constructor; [assumption|].
      eapply Forall_impl; [|exact Hall]. simpl. intros; lia.
    + inversion Hs as [|? ? Hs' Hall]; subst.
      constructor; [now apply IH|].
      eapply Permutation_Forall; [apply insert_by_Year_perm|].
      constructor; [lia|assumption].
Qed.

Lemma sort_values_Year_sorted df : ascending_by_Year (sort_values_Year df).
Proof.
  induction df as [|r df IH]; simpl.
  - constructor.
  - now apply insert_by_Year_sorted.
Qed.

End SortValues.

Section CountrySeries.

(** Selecting rows keeps a column (or a tuple of columns) free of
    repetitions. *)
Lemma distinct_keys_selected {K : Type} (column : Row -> K) (keep : Row -> bool)
    (df : DataFrame) (Hdistinct : NoDup (map column df)) :
  NoDup (map column (filter keep df)).
Proof.
  induction df as [|row df IH]; simpl in *; [constructor|].
  apply NoDup_cons_iff in Hdistinct as [Hfresh Hrest].
  destruct (keep row); simpl; [|now apply IH].
  apply NoDup_cons; [|now apply IH].
  rewrite in_map_iff. intros (x & Hx & Hxin).
  apply filter_In in Hxin as [Hxin _].
  apply Hfresh. rewrite <- Hx. now apply in_map.
Qed.

Lemma where_Country_In df country r :
  In r (where_Country df country) <-> In r df /\ Country r = country.
Proof.
  unfold where_Country. rewrite filter_In, String.eqb_eq. reflexivity.
Qed.

Lemma get_country_data_In df country r :
  In r (get_country_data (Some df) country) <-> In r df /\ Country r = country.
Proof.
  simpl. rewrite <- where_Country_In.
  split; apply Permutation_in;
    [symmetry|]; apply sort_values_Year_perm.
Qed.

(** Within one country, distinct rows have distinct years. *)
Lemma unique_years_of_country df country :
  unique_country_year df ->
  NoDup (map Year (get_country_data (Some df) country)).
Proof.
  intros Hu.
  assert (Hp : NoDup (map (fun r => (Country r, Year r))
                        (get_country_data (Some df) country))).
  { eapply Permutation_NoDup.
    - apply Permutation_map, sort_values_Year_perm.
    - now apply distinct_keys_selected. }
  assert (Hc : forall r, In r (get_country_data (Some df) country) ->
                         Country r = country)
    by (intros r Hr; now apply get_country_data_In in Hr).
  induction (get_country_data (Some df) country) as [|a l IH]; simpl in *.
  - constructor.
  - inversion Hp as [|? ? Hnotin Hp']; subst.
    constructor; [|apply IH; auto].
    intros Hin. apply Hnotin.
    apply in_map_iff in Hin as (x & Hx & Hxin).
    apply in_map_iff. exists x. split; [|assumption].
    rewrite Hx, (Hc x), (Hc a); auto.
Qed.

Lemma ascending_NoDup_strict l :
  ascending_by_Year l -> NoDup (map Year l) -> strictly_ascending_by_Year l.
Proof.
  unfold ascending_by_Year, strictly_ascending_by_Year.
  induction 1 as [|a l Hs IH Hall]; simpl; intros Hnd; [constructor|].
  inversion Hnd as [|? ? Hnotin Hnd']; subst.
  constructor; [now apply IH|].
  rewrite Forall_forall in *. intros x Hx.
  specialize (Hall x Hx).
  assert (Year a <> Year x).
  { intros Heq. apply Hnotin. rewrite Heq. now apply in_map. }
  lia.
Qed.

End CountrySeries.

(** C6. For every dataset and every country, [get_country_data] returns
    exactly the rows whose [Country] equals the queried country (as a
    rearrangement of the selected rows, and row by row), in ascending order
    of [Year]; the order is strict when each (country, year) pair occurs
    once in the dataset; the result is empty when the country has no
    row. *)
Theorem get_country_data_series (df : DataFrame) (country : string) :
  let series := get_country_data (Some df) country in
  Permutation series (filter (fun r => String.eqb (Country r) country) df) /\
  (forall r, In r series <-> In r df /\ Country r = country) /\
  ascending_by_Year series /\
  (unique_country_year df -> strictly_ascending_by_Year series) /\
  ((forall r, In r df -> Country r <> country) -> series = []).
Proof.
  cbv zeta. split; [|split; [|split; [|split]]].
  - symmetry. apply sort_values_Year_perm.
  - intros r. apply get_country_data_In.
  - apply sort_values_Year_sorted.
  - intros Hu. apply ascending_NoDup_strict.
    + apply sort_values_Year_sorted.
    + now apply unique_years_of_country.
  - intros Hnone.
    destruct (get_country_data (Some df) country) as [|r l] eqn:E; [reflexivity|].
    exfalso.
    assert (Hr : In r (get_country_data (Some df) country)) by (rewrite E; now left).
    apply get_country_data_In in Hr as [Hin Hc].
    exact (Hnone r Hin Hc).
Qed.

(** C9. With no dataset ([df is None]) [get_country_data] returns the empty
    frame for every country: it does not raise. *)
Theorem get_country_data_None (country : string) :
  get_country_data None country = DataFrame_ /\
  empty (get_country_data None country) = true.
Proof. split; reflexivity. Qed.

Section CurrentEmissions.

(** The four ways [calculate_emissions] can go. *)
Lemma calculate_emissions_cases (model : option Model) country year :
  let input_data := [(country, year)] in
  match model with
  | None =>
      calculate_emissions model country year =
      ([st_error "Error calculating emissions: 'NoneType' object has no attribute 'predict'"],
       Return fallback_emissions)
  | Some m =>
      match predict m input_data with
      | Raise e =>
          calculate_emissions model country year =
          ([call_predict input_data;
            st_error ("Error calculating emissions: " ++ exn_str e)%string],
           Return fallback_emissions)
      | Return [] =>
          calculate_emissions model country year =
          ([call_predict input_data;
            st_error "Error calculating emissions: index 0 is out of bounds for axis 0 with size 0"],
           Return fallback_emissions)
      | Return (v :: _) =>
          calculate_emissions model country year =
          ([call_predict input_data], Return v)
      end
  end.
Proof.
  destruct model as [m|]; simpl; [|reflexivity].
  unfold calculate_emissions, model_predict; simpl.
  destruct (predict m [(country, year)]) as [[|v rest]|e]; reflexivity.
Qed.

Lemma NoDup_map_In_inj {A B} (f : A -> B) (l : list A) a b :
  NoDup (map f l) -> In a l -> In b l -> f a = f b -> a = b.
Proof.
  induction l as [|x l IH]; simpl; intros Hnd Ha Hb Hf; [contradiction|].
  inversion Hnd as [|? ? Hnotin Hnd']; subst.
  destruct Ha as [->|Ha], Hb as [->|Hb]; auto.
  - exfalso. apply Hnotin. rewrite Hf. now apply in_map.
  - exfalso. apply Hnotin. rewrite <- Hf. now apply in_map.
Qed.

Lemma Year_values_contain_true df year :
  Year_values_contain df year = true <-> exists r, In r df /\ Year r = year.
Proof.
  unfold Year_values_contain. rewrite existsb_exists.
  split; intros (r & Hin & Hy); exists r; split; auto; now apply Z.eqb_eq.
Qed.

Lemma where_Year_In df year r :
  In r (where_Year df year) <-> In r df /\ Year r = year.
Proof. unfold where_Year. now rewrite filter_In, Z.eqb_eq. Qed.

(** When the year is present, the value read is that of a row of the
    series with that year, and nothing is written to the trace. *)
Lemma main_current_emissions_stored model country_data country year :
  Year_values_contain country_data year = true ->
  exists r, In r country_data /\ Year r = year /\
    main_current_emissions model country_data country year =
    ([], Return (Per_Capita_CO2_kg r)).
Proof.
  intros Hc. unfold main_current_emissions. rewrite Hc.
  apply Year_values_contain_true in Hc as (r0 & Hin0 & Hy0).
  destruct (where_Year country_data year) as [|r rest] eqn:E.
  - exfalso.
    assert (H : In r0 (where_Year country_data year)) by now apply where_Year_In.
    now rewrite E in H.
  - assert (H : In r (where_Year country_data year)) by (rewrite E; now left).
    apply where_Year_In in H as [Hin Hy].
    exists r. repeat split; auto.
Qed.

End CurrentEmissions.

(** C1. For every model, country and year, [calculate_emissions] does not
    raise; when [model.predict] raises an exception, the error is reported
    and the fallback constant [5000.0] is returned. *)
Theorem calculate_emissions_never_raises
    (model : option Model) (country : string) (year : Z) :
  (exists v, result (calculate_emissions model country year) = Return v) /\
  (forall m e,
      model = Some m ->
      predict m [(country, year)] = Raise e ->
      calculate_emissions model country year =
      ([call_predict [(country, year)];
        st_error ("Error calculating emissions: " ++ exn_str e)%string],
       Return 5000.0%float)).
Proof.
  pose proof (calculate_emissions_cases model country year) as H.
  cbv zeta in H. split.
  - destruct model as [m|].
    + destruct (predict m [(country, year)]) as [[|v rest]|e];
        rewrite H; eexists; reflexivity.
    + rewrite H. eexists; reflexivity.
  - intros m e -> Hp. now rewrite Hp in H.
Qed.

(** C2. For every dataset, model, country and year: when the dataset holds
    a record for (country, year), the series of the country is not empty,
    the current-emissions value is the stored [Per_Capita_CO2_kg] of such a
    record (of that very record when each (country, year) pair occurs once)
    and the model is not called; [model.predict] is called only when the
    dataset holds no such record, and then the value is that of
    [calculate_emissions]. *)
Theorem current_emissions_ground_truth
    (df : DataFrame) (model : option Model) (country : string) (year : Z) :
  let country_data := get_country_data (Some df) country in
  let current := main_current_emissions model country_data country year in
  ((exists r, In r df /\ Country r = country /\ Year r = year) ->
     empty country_data = false /\
     trace current = [] /\
     exists r, In r df /\ Country r = country /\ Year r = year /\
               result current = Return (Per_Capita_CO2_kg r)) /\
  (forall r, In r df -> Country r = country -> Year r = year ->
     unique_country_year df ->
     current = ([], Return (Per_Capita_CO2_kg r))) /\
  (forall input_data, In (call_predict input_data) (trace current) ->
     forall r, In r df -> Country r = country -> Year r <> year) /\
  ((forall r, In r df -> Country r = country -> Year r <> year) ->
     current = calculate_emissions model country year).
Proof.
  cbv zeta.
  assert (Hstored : forall r0, In r0 df -> Country r0 = country -> Year r0 = year ->
            exists r, In r df /\ Country r = country /\ Year r = year /\
              main_current_emissions model (get_country_data (Some df) country)
                country year = ([], Return (Per_Capita_CO2_kg r))).
  { intros r0 Hin0 Hc0 Hy0.
    destruct (main_current_emissions_stored model
                (get_country_data (Some df) country) country year)
      as (r & Hin & Hy & Heq).
    - apply Year_values_contain_true. exists r0. split; [|assumption].
      now apply get_country_data_In.
    - apply get_country_data_In in Hin as [Hin Hc].
      exists r. repeat split; assumption. }
  split; [|split; [|split]].
  - intros (r0 & Hin0 & Hc0 & Hy0). split; [|split].
    + destruct (get_country_data (Some df) country) eqn:E; [|reflexivity].
      exfalso.
      assert (H : In r0 (get_country_data (Some df) country))
        by now apply get_country_data_In.
      now rewrite E in H.
    + destruct (Hstored r0 Hin0 Hc0 Hy0) as (r & _ & _ & _ & ->). reflexivity.
    + destruct (Hstored r0 Hin0 Hc0 Hy0) as (r & Hin & Hc & Hy & ->).
      exists r. repeat split; assumption.
  - intros r0 Hin0 Hc0 Hy0 Hu.
    destruct (Hstored r0 Hin0 Hc0 Hy0) as (r & Hin & Hc & Hy & ->).
    replace r with r0; [reflexivity|].
    apply (NoDup_map_In_inj (fun r => (Country r, Year r)) df); auto.
    simpl. congruence.
  - intros input_data Hcall r0 Hin0 Hc0 Hy0.
    destruct (Hstored r0 Hin0 Hc0 Hy0) as (r & _ & _ & _ & Heq).
    rewrite Heq in Hcall. exact Hcall.
  - intros Hnone. unfold main_current_emissions.
    destruct (Year_values_contain (get_country_data (Some df) country) year) eqn:E;
      [|reflexivity].
    exfalso. apply Year_values_contain_true in E as (r & Hin & Hy).
    apply get_country_data_In in Hin as [Hin Hc].
    exact (Hnone r Hin Hc Hy).
Qed.

Section ComparisonSnapshot.

Lemma fold_left_max_ge rest : forall y0,
  y0 <= fold_left (fun acc x => Z.max acc (Year x)) rest y0 /\
  (forall r, In r rest ->
     Year r <= fold_left (fun acc x => Z.max acc (Year x)) rest y0).
Proof.
  induction rest as [|x rest IH]; simpl; intros y0.
  - split; [lia|contradiction].
  - destruct (IH (Z.max y0 (Year x))) as [H1 H2]. split; [lia|].
    intros r [->|Hr]; [lia|auto].
Qed.

Lemma fold_left_max_attained rest : forall y0,
  fold_left (fun acc x => Z.max acc (Year x)) rest y0 = y0 \/
  exists r, In r rest /\
    Year r = fold_left (fun acc x => Z.max acc (Year x)) rest y0.
Proof.
  induction rest as [|x rest IH]; simpl; intros y0; [now left|].
  destruct (IH (Z.max y0 (Year x))) as [H|(r & Hr & Hy)].
  - rewrite H. destruct (Z.max_spec y0 (Year x)) as [[_ ->]|[_ ->]].
    + right. exists x. auto.
    + now left.
  - right. exists r. auto.
Qed.

(** [Year_max] of a frame with rows is the greatest year in it. *)
Lemma Year_max_spec df :
  match Year_max df with
  | None => df = []
  | Some y => (exists r, In r df /\ Year r = y) /\
              (forall r, In r df -> Year r <= y)
  end.
Proof.
  destruct df as [|r0 rest]; simpl; [reflexivity|].
  destruct (fold_left_max_ge rest (Year r0)) as [H1 H2].
  split.
  - destruct (fold_left_max_attained rest (Year r0)) as [H|(r & Hr & Hy)].
    + exists r0. auto.
    + exists r. auto.
  - intros r [<-|Hr]; auto.
Qed.

Lemma empty_get_country_data df country :
  empty (get_country_data (Some df) country) = negb (has_records df country).
Proof.
  destruct (has_records df country) eqn:E; simpl.
  - apply existsb_exists in E as (r & Hin & Hc). apply String.eqb_eq in Hc.
    destruct (sort_values_Year (where_Country df country)) eqn:E'; [|reflexivity].
    exfalso.
    assert (H : In r (get_country_data (Some df) country))
      by now apply get_country_data_In.
    simpl in H. now rewrite E' in H.
  - destruct (sort_values_Year (where_Country df country)) as [|r l] eqn:E';
      [reflexivity|].
    exfalso.
    assert (H : In r (get_country_data (Some df) country))
      by (simpl; rewrite E'; now left).
    apply get_country_data_In in H as [Hin Hc].
    assert (has_records df country = true); [|congruence].
    apply existsb_exists. exists r. split; [assumption|now apply String.eqb_eq].
Qed.

(** One round of the loop, for a country that has rows. *)
Lemma latest_entry_exists df country :
  has_records df country = true ->
  exists y v,
    Year_max (get_country_data (Some df) country) = Some y /\
    values_0 (map Per_Capita_CO2_kg
                (where_Year (get_country_data (Some df) country) y)) = Return v /\
    latest_of df (mkEntry country y v).
Proof.
  intros Hrec.
  pose proof (empty_get_country_data df country) as Hne. rewrite Hrec in Hne.
  pose proof (Year_max_spec (get_country_data (Some df) country)) as Hmax.
  destruct (Year_max (get_country_data (Some df) country)) as [y|];
    [|rewrite Hmax in Hne; discriminate].
  destruct Hmax as [(r0 & Hin0 & Hy0) Hle].
  destruct (where_Year (get_country_data (Some df) country) y) as [|r rest] eqn:E.
  - exfalso.
    assert (H : In r0 (where_Year (get_country_data (Some df) country) y))
      by now apply where_Year_In.
    now rewrite E in H.
  - assert (H : In r (where_Year (get_country_data (Some df) country) y))
      by (rewrite E; now left).
    apply where_Year_In in H as [Hin Hy].
    apply get_country_data_In in Hin as [Hin Hc].
    exists y, (Per_Capita_CO2_kg r).
    split; [reflexivity|]. split; [now rewrite E|]. split.
    + exists r. simpl. auto.
    + simpl. intros r' Hin' Hc'. apply Hle. now apply get_country_data_In.
Qed.

Lemma comparison_loop_spec df countries : forall comparison_data,
  exists entries,
    comparison_loop (Some df) countries comparison_data =
    ([], Return (comparison_data ++ entries)) /\
    map entry_Country entries = filter (has_records df) countries /\
    Forall (latest_of df) entries.
Proof.
  induction countries as [|country rest IH]; intros acc.
  - exists []. simpl. rewrite app_nil_r. repeat split; constructor.
  - cbn [comparison_loop filter].
    rewrite empty_get_country_data, negb_involutive.
    destruct (has_records df country) eqn:Hrec.
    + destruct (latest_entry_exists df country Hrec) as (y & v & -> & -> & Hlatest).
      destruct (IH (acc ++ [mkEntry country y v])) as (entries & Heq & Hmap & Hall).
      exists (mkEntry country y v :: entries).
      split; [|split].
      * unfold bind, lift. rewrite Heq. simpl.
        now rewrite <- app_assoc.
      * simpl. now rewrite Hmap.
      * now constructor.
    + destruct (IH acc) as (entries & Heq & Hmap & Hall).
      exists entries. auto.
Qed.

End ComparisonSnapshot.

(** C8. For every dataset and every requested sequence of countries, the
    loop that fills [comparison_data] ends without error and without any
    message; its entries are, in request order, one per requested country
    that has at least one row (countries without rows give no entry), and
    each entry carries the country's greatest year and the
    [Per_Capita_CO2_kg] stored for that country and year. *)
Theorem comparison_snapshot_latest (df : DataFrame) (countries : list string) :
  exists comparison_data,
    comparison_loop (Some df) countries [] = ([], Return comparison_data) /\
    map entry_Country comparison_data = filter (has_records df) countries /\
    Forall (latest_of df) comparison_data.
Proof.
  destruct (comparison_loop_spec df countries []) as (entries & Heq & Hmap & Hall).
  exists entries. auto.
Qed.

Section ModelResolution.

Variable env : Env.

(** The three ways [rebuild_model] can go. *)
Lemma rebuild_model_cases (emissions_df : DataFrame) :
  match pipeline_fit env emissions_df with
  | Raise e =>
      rebuild_model env emissions_df =
      ([call_rebuild_model emissions_df; call_fit;
        st_error ("Error rebuilding model: " ++ exn_str e)%string],
       Return None)
  | Return m =>
      match joblib_dump env m with
      | Raise e =>
          rebuild_model env emissions_df =
          ([call_rebuild_model emissions_df; call_fit; call_dump;
            st_error ("Error rebuilding model: " ++ exn_str e)%string],
           Return None)
      | Return _ =>
          rebuild_model env emissions_df =
          ([call_rebuild_model emissions_df; call_fit; call_dump],
           Return (Some m))
      end
  end.
Proof.
  unfold rebuild_model. simpl.
  destruct (pipeline_fit env emissions_df) as [m|e]; simpl; [|reflexivity].
  destruct (joblib_dump env m) as [[]|e]; reflexivity.
Qed.

(** [rebuild_model] never raises, enters its body once and shows
    nothing but error messages. *)
Lemma rebuild_model_total (emissions_df : DataFrame) :
  exists t built,
    rebuild_model env emissions_df = (t, Return built) /\
    filter is_call_rebuild_model t = [call_rebuild_model emissions_df] /\
    (forall v, ~ In (st_render v) t) /\
    (forall m, built = Some m -> pipeline_fit env emissions_df = Return m).
Proof.
  pose proof (rebuild_model_cases emissions_df) as H.
  destruct (pipeline_fit env emissions_df) as [m|e].
  - destruct (joblib_dump env m) as [u|e]; rewrite H;
      do 2 eexists; (split; [reflexivity|]); (split; [reflexivity|]); split;
      try (intros v Hin; simpl in Hin; intuition discriminate);
      try (intros m' Hm; congruence).
  - rewrite H. do 2 eexists. split; [reflexivity|]. split; [reflexivity|]. split.
    + intros v Hin; simpl in Hin; intuition discriminate.
    + intros m' Hm; discriminate.
Qed.

(** [load_resources] when the table loads and the persisted model does
    not pass: a warning, then whatever [rebuild_model] does. *)
Lemma load_resources_rebuild (recs : list Record_) :
  read_csv env = Return recs ->
  artifact_usable env = false ->
  let emissions_df := with_RangeIndex 0 recs in
  let country_list := sorted (unique (map Country emissions_df)) in
  exists t0 t built,
    rebuild_model env emissions_df = (t, Return built) /\
    (forall ev, In ev t0 -> exists input_data, ev = call_predict input_data) /\
    load_resources env =
    (t0 ++ st_warning "Original model has issues. Rebuilding model..." :: t ++
       match built with
       | None => [st_error "Failed to create a working model"]
       | Some _ => []
       end,
     Return (built, Some emissions_df, country_list)).
Proof.
  intros Hcsv Hart. cbv zeta.
  destruct (rebuild_model_total (with_RangeIndex 0 recs))
    as (t & built & Hr & _).
  unfold load_resources, artifact_usable in *.
  rewrite Hcsv. cbn [lift bind try_except app].
  destruct (joblib_load env) as [m|e]; cbn [lift bind try_except app model_predict emit].
  - destruct (predict m test_data) as [p|e]; [discriminate|].
    cbn [lift bind try_except app]. rewrite Hr.
    exists [call_predict test_data], t, built. split; [reflexivity|]. split.
    + intros ev [<-|[]]. now eexists.
    + destruct built; simpl; rewrite ?app_nil_r; reflexivity.
  - rewrite Hr.
    exists [], t, built. split; [reflexivity|]. split.
    + intros ev [].
    + destruct built; simpl; rewrite ?app_nil_r; reflexivity.
Qed.

End ModelResolution.

(** C3, as the specification states it, fails: on the two-record dataset
    fitting succeeds and persisting raises, and [rebuild_model] reports an
    error and returns [None] instead of the fitted model. *)
Lemma rebuild_model_dump_failure_loses_model :
  pipeline_fit Scenario.env_dump_fails Scenario.df_AB
    = Return (Scenario.constant_model 200.0%float) /\
  rebuild_model Scenario.env_dump_fails Scenario.df_AB =
    ([call_rebuild_model Scenario.df_AB; call_fit; call_dump;
      st_error "Error rebuilding model: [Errno 13] Permission denied: 'country_emissions_model_fixed.pkl'"],
     Return None) /\
  result (rebuild_model Scenario.env_dump_fails Scenario.df_AB)
    <> Return (Some (Scenario.constant_model 200.0%float)).
Proof.
  split; [reflexivity|]. split; [reflexivity|]. discriminate.
Qed.

(** C3, amended. For every dataset on which fitting succeeds,
    [rebuild_model] returns the fitted model when persisting it succeeds
    too; when persisting raises, the one handler of the function catches
    it: an error message is shown and [None] is returned. *)
Theorem rebuild_model_needs_persistence
    (env : Env) (emissions_df : DataFrame) (m : Model) :
  pipeline_fit env emissions_df = Return m ->
  match joblib_dump env m with
  | Return _ =>
      rebuild_model env emissions_df =
      ([call_rebuild_model emissions_df; call_fit; call_dump], Return (Some m))
  | Raise e =>
      rebuild_model env emissions_df =
      ([call_rebuild_model emissions_df; call_fit; call_dump;
        st_error ("Error rebuilding model: " ++ exn_str e)%string],
       Return None)
  end.
Proof.
  intros Hfit. pose proof (rebuild_model_cases env emissions_df) as H.
  rewrite Hfit in H. destruct (joblib_dump env m); exact H.
Qed.

Lemma rebuild_model_needs_persistence_witness :
  rebuild_model Scenario.env_rebuild_ok Scenario.df_AB =
  ([call_rebuild_model Scenario.df_AB; call_fit; call_dump],
   Return (Some (Scenario.constant_model 200.0%float))).
Proof.
  exact (rebuild_model_needs_persistence Scenario.env_rebuild_ok Scenario.df_AB
           (Scenario.constant_model 200.0%float) eq_refl).
Defined.

(** C4, as the specification states it, fails: with the table loaded (one
    of its values missing), no persisted model and the fit refusing the
    missing value, [load_resources] does return the table, but [main]
    shows three error messages and a warning and renders no view at
    all. *)
Lemma main_without_model_renders_nothing :
  result (load_resources Scenario.env_fit_fails) =
    Return (None, Some Scenario.df_missing, ["A"; "B"]) /\
  main Scenario.env_fit_fails Scenario.widgets_A =
    ([st_warning "Original model has issues. Rebuilding model...";
      call_rebuild_model Scenario.df_missing; call_fit;
      st_error "Error rebuilding model: Input y contains NaN.";
      st_error "Failed to create a working model";
      st_error "Application cannot start without a working model. Please check your data files."],
     Return tt) /\
  (forall v, ~ In (st_render v) (trace (main Scenario.env_fit_fails Scenario.widgets_A))).
Proof.
  split; [reflexivity|]. split; [reflexivity|].
  intros v Hin. cbv in Hin. intuition discriminate.
Qed.

(** C4, amended. When the dataset has loaded and no model can be resolved
    (the persisted one does not pass and [rebuild_model] returns [None]),
    [load_resources] still returns the loaded dataset and the country list
    beside the [None] model, but [main] stops at its guard: it ends with
    the message that the application cannot start and renders no view, the
    dataset included. *)
Theorem no_model_no_views (env : Env) (w : Widgets) (recs : list Record_) :
  read_csv env = Return recs ->
  artifact_usable env = false ->
  result (rebuild_model env (with_RangeIndex 0 recs)) = Return None ->
  let emissions_df := with_RangeIndex 0 recs in
  result (load_resources env) =
    Return (None, Some emissions_df, sorted (unique (map Country emissions_df))) /\
  result (main env w) = Return tt /\
  (forall v, ~ In (st_render v) (trace (main env w))) /\
  In (st_error "Application cannot start without a working model. Please check your data files.")
     (trace (main env w)).
Proof.
  intros Hcsv Hart Hnone. cbv zeta.
  destruct (load_resources_rebuild env recs Hcsv Hart)
    as (t0 & t & built & Hr & Ht0 & Hload).
  destruct (rebuild_model_total env (with_RangeIndex 0 recs))
    as (t' & built' & Hr' & _ & Hnorender & _).
  rewrite Hr in Hr'. injection Hr' as <- <-.
  rewrite Hr in Hnone. simpl in Hnone. injection Hnone as ->.
  unfold main. rewrite Hload. cbn [bind emit result trace fst snd].
  split; [reflexivity|]. split; [reflexivity|]. split.
  - intros v Hin.
    repeat (apply in_app_or in Hin as [Hin|Hin] || simpl in Hin).
    + apply Ht0 in Hin as (? & ?). discriminate.
    + destruct Hin as [Hin|Hin]; [discriminate|].
      apply in_app_or in Hin as [Hin|Hin].
      * now apply Hnorender in Hin.
      * simpl in Hin. intuition discriminate.
    + simpl in Hin. intuition discriminate.
  - apply in_or_app. right. now left.
Qed.

Lemma no_model_no_views_witness :
  result (load_resources Scenario.env_fit_fails) =
    Return (None, Some Scenario.df_missing,
            sorted (unique (map Country Scenario.df_missing))) /\
  result (main Scenario.env_fit_fails Scenario.widgets_A) = Return tt /\
  (forall v, ~ In (st_render v)
                  (trace (main Scenario.env_fit_fails Scenario.widgets_A))) /\
  In (st_error "Application cannot start without a working model. Please check your data files.")
     (trace (main Scenario.env_fit_fails Scenario.widgets_A)).
Proof.
  exact (no_model_no_views Scenario.env_fit_fails Scenario.widgets_A
           Scenario.records_missing eq_refl eq_refl eq_refl).
Defined.




(** ** Facts on the order of binary64 numbers *)

Module FloatOrderFacts.

Local Open Scope float_scope.

Lemma SFltb_key a b :
  SFltb a b = true <-> not_nan a /\ not_nan b /\ lex_lt (key a) (key b).
Proof.
  unfold SFltb, not_nan.
  destruct a as [sa|sa| |sa ma ea], b as [sb|sb| |sb mb eb];
    try destruct sa; try destruct sb; simpl;
    try (split; [discriminate|intros (? & ? & ?); try congruence; lia]);
    try (split; [intros _; repeat split; try discriminate; lia|reflexivity]).
  - rewrite Pos.compare_cont_spec. simpl.
    destruct (Z.compare_spec ea eb); destruct (Pos.compare_spec ma mb); simpl;
      (split; [try discriminate; intros _; repeat split; try discriminate; lia
              |try reflexivity; intros (_ & _ & ?); lia]).
  - rewrite Pos.compare_cont_spec. simpl.
    destruct (Z.compare_spec ea eb); destruct (Pos.compare_spec ma mb); simpl;
      (split; [try discriminate; intros _; repeat split; try discriminate; lia
              |try reflexivity; intros (_ & _ & ?); lia]).
Qed.

Lemma SFeqb_key a b :
  SFeqb a b = true <-> not_nan a /\ not_nan b /\ key a = key b.
Proof.
  unfold SFeqb, not_nan.
  destruct a as [sa|sa| |sa ma ea], b as [sb|sb| |sb mb eb];
    try destruct sa; try destruct sb; simpl;
    try (split; [discriminate|intros (? & ? & ?); congruence]);
    try (split; [intros _; repeat split; discriminate|reflexivity]).
  - rewrite Pos.compare_cont_spec. simpl.
    destruct (Z.compare_spec ea eb); destruct (Pos.compare_spec ma mb); simpl;
      (split; [try discriminate; intros _; repeat split; try discriminate; congruence
              |try reflexivity; intros (_ & _ & [= ? ?]); lia]).
  - rewrite Pos.compare_cont_spec. simpl.
    destruct (Z.compare_spec ea eb); destruct (Pos.compare_spec ma mb); simpl;
      (split; [try discriminate; intros _; repeat split; try discriminate; congruence
              |try reflexivity; intros (_ & _ & [= ? ?]); lia]).
Qed.

Lemma SFleb_key a b :
  SFleb a b = true <->
  not_nan a /\ not_nan b /\ ~ lex_lt (key b) (key a).
Proof.
  unfold SFleb, not_nan.
  destruct a as [sa|sa| |sa ma ea], b as [sb|sb| |sb mb eb];
    try destruct sa; try destruct sb; simpl;
    try (split; [discriminate|intros (? & ? & ?); try congruence; lia]);
    try (split; [intros _; repeat split; try discriminate; lia|reflexivity]).
  - rewrite Pos.compare_cont_spec. simpl.
    destruct (Z.compare_spec ea eb); destruct (Pos.compare_spec ma mb); simpl;
      (split; [try discriminate; intros _; repeat split; try discriminate; lia
              |try reflexivity; intros (_ & _ & ?); lia]).
  - rewrite Pos.compare_cont_spec. simpl.
    destruct (Z.compare_spec ea eb); destruct (Pos.compare_spec ma mb); simpl;
      (split; [try discriminate; intros _; repeat split; try discriminate; lia
              |try reflexivity; intros (_ & _ & ?); lia]).
Qed.

Lemma number_spec x : number x <-> not_nan (Prim2SF x).
Proof.
  unfold number, is_nan. rewrite negb_false_iff, eqb_spec, SFeqb_key.
  tauto.
Qed.

Lemma ltb_key x y :
  (x <? y) = true <->
  number x /\ number y /\ lex_lt (key (Prim2SF x)) (key (Prim2SF y)).
Proof. now rewrite ltb_spec, SFltb_key, !number_spec. Qed.

Lemma eqb_key x y :
  (x =? y) = true <->
  number x /\ number y /\ key (Prim2SF x) = key (Prim2SF y).
Proof. now rewrite eqb_spec, SFeqb_key, !number_spec. Qed.

Lemma leb_key x y :
  (x <=? y) = true <->
  number x /\ number y /\ ~ lex_lt (key (Prim2SF y)) (key (Prim2SF x)).
Proof. now rewrite leb_spec, SFleb_key, !number_spec. Qed.

(** Comparisons are settled on the ranks, by linear arithmetic. *)
Ltac by_keys :=
  repeat match goal with
         | H : (_ <? _) = true |- _ => apply ltb_key in H
         | H : (_ <? _) = false |- _ =>
             apply not_true_iff_false in H; rewrite ltb_key in H
         | |- (_ <? _) = true => apply ltb_key
         | |- (_ <? _) = false => apply not_true_iff_false; rewrite ltb_key
         | |- (_ =? _) = true => apply eqb_key
         end;
  unfold lex_lt in *;
  repeat match goal with
         | |- context [key ?s] => destruct (key s) as [[? ?] ?]
         | H : context [key ?s] |- _ => destruct (key s) as [[? ?] ?]
         end;
  try (intuition (try lia; try congruence)).

Lemma ltb_trans a b c : (a <? b) = true -> (b <? c) = true -> (a <? c) = true.
Proof. intros; by_keys. Qed.

Lemma ltb_asym a b : (a <? b) = true -> (b <? a) = false.
Proof. intros; by_keys. Qed.

Lemma ltb_irrefl a : (a <? a) = false.
Proof. by_keys. Qed.

Lemma ltb_nan_r a b : is_nan b = true -> (a <? b) = false.
Proof.
  intros Hb. apply not_true_iff_false. rewrite ltb_key.
  unfold number. intros (_ & Hn & _). congruence.
Qed.

(** [x <= b < r] gives [x < r]. *)
Lemma leb_ltb_trans x b r :
  number x -> (b <? x) = false -> (b <? r) = true -> (x <? r) = true.
Proof. intros; by_keys. Qed.

(** [r < x <= b] gives [r < b]. *)
Lemma ltb_leb_trans r x b :
  number b -> (r <? x) = true -> (b <? x) = false -> (r <? b) = true.
Proof. intros; by_keys. Qed.

Lemma ltb_antisym_eqb a b :
  number a -> number b -> (a <? b) = false -> (b <? a) = false ->
  (a =? b) = true.
Proof.
  intros; by_keys.
  match goal with
  | |- (?a, ?b, ?c) = (?d, ?e, ?f) =>
      assert (a = d /\ b = e /\ c = f) as (-> & -> & ->) by lia; reflexivity
  end.
Qed.

(** [a <= v < x] gives [a < x]. *)
Lemma leb_then_ltb a v x :
  (a <=? v) = true -> (v <? x) = true -> (a <? x) = true.
Proof.
  intros Hle Hlt. apply leb_key in Hle as (Ha & _ & Hle).
  apply ltb_key in Hlt as (_ & Hx & Hlt). apply ltb_key.
  split; [exact Ha|]. split; [exact Hx|].
  unfold lex_lt in *.
  destruct (key (Prim2SF a)) as [[a1 a2] a3], (key (Prim2SF v)) as [[v1 v2] v3],
    (key (Prim2SF x)) as [[x1 x2] x3].
  lia.
Qed.

(** Of two numbers, [a <= v] or [v < a]. *)
Lemma leb_false_ltb a v :
  number a -> number v -> (a <=? v) = false -> (a <? v) = false.
Proof.
  intros Ha Hv Hle. apply not_true_iff_false. intros Hlt.
  apply not_true_iff_false in Hle. apply Hle. apply leb_key.
  split; [exact Ha|]. split; [exact Hv|].
  apply ltb_key in Hlt as (_ & _ & Hlt).
  unfold lex_lt in *.
  destruct (key (Prim2SF a)) as [[a1 a2] a3], (key (Prim2SF v)) as [[v1 v2] v3].
  lia.
Qed.

End FloatOrderFacts.

Section HistoricalPeak.

Import FloatOrderFacts.
Local Open Scope float_scope.

Lemma dropna_In df r :
  In r (dropna df) <-> In r df /\ number (Per_Capita_CO2_kg r).
Proof. unfold dropna, number. now rewrite filter_In, negb_true_iff. Qed.

Lemma ascending_dropna df :
  ascending_by_Year df -> ascending_by_Year (dropna df).
Proof.
  unfold ascending_by_Year, dropna.
  induction df as [|a df IH]; simpl; intros Hs; [constructor|].
  inversion Hs as [|? ? Hs' Hall]; subst.
  destruct (negb (is_nan (Per_Capita_CO2_kg a))); [|now apply IH].
  constructor; [now apply IH|].
  rewrite Forall_forall in *. intros x Hx.
  apply filter_In in Hx as [Hx _]. now apply Hall.
Qed.

(** The scan returns the first row that holds the maximum of a column of
    numbers: the rows before it are strictly below, no row after it is
    above. *)
Lemma argmax_scan_first rows : forall best pre mid,
  (forall x, In x (mid ++ rows) -> number (Per_Capita_CO2_kg x)) ->
  (forall x, In x pre ->
     (Per_Capita_CO2_kg x <? Per_Capita_CO2_kg best) = true) ->
  (forall x, In x mid ->
     (Per_Capita_CO2_kg best <? Per_Capita_CO2_kg x) = false) ->
  exists pre' post,
    pre ++ best :: mid ++ rows = pre' ++ argmax_scan best rows :: post /\
    (forall x, In x pre' ->
       (Per_Capita_CO2_kg x <? Per_Capita_CO2_kg (argmax_scan best rows)) = true) /\
    (forall x, In x post ->
       (Per_Capita_CO2_kg (argmax_scan best rows) <? Per_Capita_CO2_kg x) = false).
Proof.
  induction rows as [|r rest IH]; intros best pre mid Hnum Hpre Hmid.
  - exists pre, mid. simpl. rewrite app_nil_r. auto.
  - simpl.
    destruct (Per_Capita_CO2_kg best <? Per_Capita_CO2_kg r) eqn:E.
    + destruct (IH r (pre ++ best :: mid) []) as (pre' & post & Heq & H1 & H2).
      * intros x Hx. apply Hnum. apply in_or_app. right. now right.
      * intros x Hx. apply in_app_or in Hx as [Hx|[<-|Hx]].
        -- eapply ltb_trans; [now apply Hpre|exact E].
        -- exact E.
        -- eapply leb_ltb_trans; [|now apply Hmid|exact E].
           apply Hnum. apply in_or_app. now left.
      * intros x [].
      * exists pre', post. split; [|auto].
        rewrite <- Heq. simpl. now rewrite <- app_assoc.
    + destruct (IH best pre (mid ++ [r])) as (pre' & post & Heq & H1 & H2).
      * intros x Hx. apply Hnum. rewrite <- app_assoc in Hx. exact Hx.
      * exact Hpre.
      * intros x Hx. apply in_app_or in Hx as [Hx|[<-|[]]]; auto.
      * exists pre', post. split; [|auto].
        rewrite <- Heq. now rewrite <- app_assoc.
Qed.

Lemma ascending_after pre a post :
  ascending_by_Year (pre ++ a :: post) ->
  forall x, In x post -> (Year a <= Year x)%Z.
Proof.
  unfold ascending_by_Year.
  induction pre as [|p pre IH]; simpl; intros Hs x Hx.
  - inversion Hs as [|? ? _ Hall]; subst.
    rewrite Forall_forall in Hall. now apply Hall.
  - inversion Hs; subst. now apply IH.
Qed.

(** [series.max()] of a column that holds a number: a number of the
    column that no value of the column exceeds. *)
Lemma nanmax_fold values : forall acc seen,
  (is_nan acc = true /\ (forall x, In x seen -> is_nan x = true)) \/
  (number acc /\ In acc seen /\ (forall x, In x seen -> (acc <? x) = false)) ->
  let M := fold_left
             (fun acc x =>
                if is_nan x then acc
                else if is_nan acc then x
                else if acc <=? x then x else acc)
             values acc in
  (is_nan M = true /\ (forall x, In x (seen ++ values) -> is_nan x = true)) \/
  (number M /\ In M (seen ++ values) /\
   (forall x, In x (seen ++ values) -> (M <? x) = false)).
Proof.
  induction values as [|v rest IH]; intros acc seen Hinv; cbv zeta.
  - simpl. now rewrite app_nil_r.
  - cbn [fold_left].
    replace (seen ++ v :: rest) with ((seen ++ [v]) ++ rest)
      by now rewrite <- app_assoc.
    apply IH.
    destruct (is_nan v) eqn:Ev.
    + destruct Hinv as [[Ha Hs]|(Ha & Hin & Hs)]; [left|right].
      * split; [assumption|].
        intros x Hx. apply in_app_or in Hx as [Hx|[<-|[]]]; auto.
      * split; [assumption|]. split; [apply in_or_app; now left|].
        intros x Hx. apply in_app_or in Hx as [Hx|[<-|[]]]; auto.
        now apply ltb_nan_r.
    + right. destruct Hinv as [[Ha Hs]|(Ha & Hin & Hs)].
      * rewrite Ha. split; [exact Ev|]. split; [apply in_or_app; right; now left|].
        intros x Hx. apply in_app_or in Hx as [Hx|[<-|[]]].
        -- apply ltb_nan_r. now apply Hs.
        -- apply ltb_irrefl.
      * unfold number in Ha. rewrite Ha.
        destruct (acc <=? v) eqn:E.
        -- split; [exact Ev|]. split; [apply in_or_app; right; now left|].
           intros x Hx. apply in_app_or in Hx as [Hx|[<-|[]]].
           ++ specialize (Hs x Hx).
              destruct (v <? x) eqn:E'; [|reflexivity].
              rewrite (leb_then_ltb _ _ _ E E') in Hs. discriminate.
           ++ apply ltb_irrefl.
        -- split; [exact Ha|]. split; [apply in_or_app; now left|].
           intros x Hx. apply in_app_or in Hx as [Hx|[<-|[]]]; auto.
           now apply leb_false_ltb.
Qed.

Lemma Per_Capita_max_spec df r0 :
  In r0 df -> number (Per_Capita_CO2_kg r0) ->
  number (Per_Capita_max df) /\
  (exists r, In r df /\ Per_Capita_CO2_kg r = Per_Capita_max df) /\
  (forall x, In x df -> (Per_Capita_max df <? Per_Capita_CO2_kg x) = false).
Proof.
  intros Hin Hnum. unfold Per_Capita_max, nanmax.
  destruct (nanmax_fold (map Per_Capita_CO2_kg df) nan [])
    as [[_ Hall]|(HM & HinM & Hmax)].
  - left. split; [reflexivity|intros x []].
  - exfalso. simpl in Hall.
    specialize (Hall (Per_Capita_CO2_kg r0) (in_map _ _ _ Hin)).
    unfold number in Hnum. congruence.
  - simpl in *. split; [exact HM|]. split.
    + apply in_map_iff in HinM as (r & Hr & Hinr). now exists r.
    + intros x Hx. apply Hmax. now apply in_map.
Qed.

(** A row is found by its label when labels are not shared. *)
Lemma loc_Year_unique df r :
  NoDup (map label df) -> In r df ->
  loc_Year df (label r) = Return [Year r].
Proof.
  intros Hnd Hin. unfold loc_Year.
  replace (filter (fun x => Nat.eqb (label x) (label r)) df) with [r];
    [reflexivity|].
  induction df as [|a df IH]; [contradiction|].
  simpl in Hnd. inversion Hnd as [|? ? Hnotin Hnd']; subst.
  simpl. destruct Hin as [->|Hin].
  - rewrite Nat.eqb_refl. f_equal.
    clear - Hnotin. induction df as [|b df IH]; [reflexivity|].
    simpl in *. destruct (Nat.eqb_spec (label b) (label r)) as [Heq|_].
    + exfalso. apply Hnotin. now left.
    + apply IH. intros H. apply Hnotin. now right.
  - destruct (Nat.eqb_spec (label a) (label r)) as [Heq|_].
    + exfalso. apply Hnotin. rewrite Heq. now apply in_map.
    + now apply IH.
Qed.

Lemma with_RangeIndex_labels recs : forall start,
  map label (with_RangeIndex start recs) = seq start (List.length recs).
Proof.
  induction recs as [|r recs IH]; intros start; simpl; [reflexivity|].
  now rewrite IH.
Qed.

Lemma get_country_data_labels recs country :
  NoDup (map label (get_country_data (Some (with_RangeIndex 0 recs)) country)).
Proof.
  simpl. eapply Permutation_NoDup.
  - apply Permutation_map, sort_values_Year_perm.
  - apply distinct_keys_selected. rewrite with_RangeIndex_labels. apply seq_NoDup.
Qed.

(** [idxmax] on a column that holds a number: the first of the rows, NaN
    set aside, that hold the maximum. *)
Lemma Per_Capita_idxmax_first df r0 :
  In r0 df -> number (Per_Capita_CO2_kg r0) ->
  exists R pre post,
    Per_Capita_idxmax df = Return (label R) /\
    dropna df = pre ++ R :: post /\
    (forall x, In x pre ->
       (Per_Capita_CO2_kg x <? Per_Capita_CO2_kg R) = true) /\
    (forall x, In x post ->
       (Per_Capita_CO2_kg R <? Per_Capita_CO2_kg x) = false).
Proof.
  intros Hin Hnum. unfold Per_Capita_idxmax.
  destruct df as [|d0 df'] eqn:Edf; [contradiction|]. rewrite <- Edf in *.
  assert (Hin0 : In r0 (dropna df)) by now apply dropna_In.
  destruct (dropna df) as [|r rest] eqn:Edrop; [contradiction|].
  destruct (argmax_scan_first rest r [] []) as (pre & post & Heq & Hbefore & Hafter).
  - intros x Hx. simpl in Hx.
    assert (H : In x (dropna df)) by (rewrite Edrop; now right).
    now apply dropna_In in H.
  - intros x [].
  - intros x [].
  - simpl in Heq. exists (argmax_scan r rest), pre, post. auto.
Qed.

(** The peak of a frame sorted by year whose labels are not shared. *)
Lemma main_historical_peak_spec country_data r0 :
  ascending_by_Year country_data ->
  NoDup (map label country_data) ->
  In r0 country_data -> number (Per_Capita_CO2_kg r0) ->
  exists R,
    In R country_data /\
    number (Per_Capita_CO2_kg R) /\
    (forall x, In x country_data ->
       (Per_Capita_CO2_kg R <? Per_Capita_CO2_kg x) = false) /\
    main_historical_peak country_data =
      ([], Return (Per_Capita_max country_data, [Year R])) /\
    (Per_Capita_max country_data =? Per_Capita_CO2_kg R) = true /\
    (forall r, In r country_data ->
       (Per_Capita_CO2_kg r =? Per_Capita_CO2_kg R) = true ->
       (Year R <= Year r)%Z).
Proof.
  intros Hsorted Hlabels Hin0 Hnum0.
  destruct (Per_Capita_idxmax_first country_data r0 Hin0 Hnum0)
    as (R & pre & post & Hidx & Hdrop & Hbefore & Hafter).
  assert (HR : In R (dropna country_data))
    by (rewrite Hdrop; apply in_or_app; right; now left).
  apply dropna_In in HR as [HinR HnumR].
  assert (Hmax : forall x, In x country_data ->
            (Per_Capita_CO2_kg R <? Per_Capita_CO2_kg x) = false).
  { intros x Hx.
    destruct (is_nan (Per_Capita_CO2_kg x)) eqn:E; [now apply ltb_nan_r|].
    assert (Hx' : In x (dropna country_data)) by now apply dropna_In.
    rewrite Hdrop in Hx'. apply in_app_or in Hx' as [Hx'|[<-|Hx']].
    - apply ltb_asym. now apply Hbefore.
    - apply ltb_irrefl.
    - now apply Hafter. }
  destruct (Per_Capita_max_spec country_data r0 Hin0 Hnum0)
    as (HnumM & (rM & HinM & HvM) & HmaxM).
  exists R. split; [exact HinR|]. split; [exact HnumR|]. split; [exact Hmax|].
  split; [|split].
  - unfold main_historical_peak. rewrite Hidx. cbn [lift bind app].
    rewrite (loc_Year_unique country_data R Hlabels HinR). reflexivity.
  - apply ltb_antisym_eqb; [exact HnumM|exact HnumR|now apply HmaxM|].
    rewrite <- HvM. now apply Hmax.
  - intros r Hinr Heq.
    assert (Hnumr : number (Per_Capita_CO2_kg r)) by now apply eqb_key in Heq.
    assert (Hr : In r (dropna country_data)) by now apply dropna_In.
    pose proof (ascending_dropna country_data Hsorted) as Hsd.
    rewrite Hdrop in Hr, Hsd. apply in_app_or in Hr as [Hr|[<-|Hr]].
    + exfalso. specialize (Hbefore r Hr).
      apply eqb_key in Heq as (_ & _ & Hk).
      apply ltb_key in Hbefore as (_ & _ & Hlt).
      rewrite Hk in Hlt. unfold lex_lt in Hlt.
      destruct (key (Prim2SF (Per_Capita_CO2_kg R))) as [[k1 k2] k3]. lia.
    + lia.
    + now apply (ascending_after pre R post).
Qed.

End HistoricalPeak.

(** C10. For every table read from the file and every country: when the
    country has a value that is a number, the historical peak shown is
    the maximum of the country's values together with the year of a row
    of that country holding it, and that year is the earliest among the
    rows of the country holding the maximum: when the maximum occurs in
    several years, the first of them is reported. When the country has
    no number at all there is no maximum, and the computation raises. *)
Theorem historical_peak_earliest (recs : list Record_) (country : string) :
  let df := with_RangeIndex 0 recs in
  let country_data := get_country_data (Some df) country in
  ((exists r, In r df /\ Country r = country /\ number (Per_Capita_CO2_kg r)) ->
   exists R peak,
     peak_row df country R /\
     main_historical_peak country_data = ([], Return (peak, [Year R])) /\
     (peak =? Per_Capita_CO2_kg R)%float = true /\
     (forall r, peak_row df country r -> Year R <= Year r)) /\
  ((forall r, In r df -> Country r = country ->
      is_nan (Per_Capita_CO2_kg r) = true) ->
   exists e, result (main_historical_peak country_data) = Raise e).
Proof.
  cbv zeta. split.
  - intros (r0 & Hin0 & Hc0 & Hnum0).
    destruct (main_historical_peak_spec
                (get_country_data (Some (with_RangeIndex 0 recs)) country) r0)
      as (R & HinR & HnumR & Hmax & Hpeak & Heq & Hearliest).
    + apply sort_values_Year_sorted.
    + apply get_country_data_labels.
    + now apply get_country_data_In.
    + exact Hnum0.
    + apply get_country_data_In in HinR as [HinR HcR].
      assert (HpR : peak_row (with_RangeIndex 0 recs) country R).
      { split; [exact HinR|]. split; [exact HcR|]. split; [exact HnumR|].
        intros x Hx Hcx. apply Hmax. now apply get_country_data_In. }
      exists R, (Per_Capita_max
                   (get_country_data (Some (with_RangeIndex 0 recs)) country)).
      split; [exact HpR|]. split; [exact Hpeak|]. split; [exact Heq|].
      intros r (Hinr & Hcr & Hnumr & Hmaxr).
      apply Hearliest; [now apply get_country_data_In|].
      apply FloatOrderFacts.ltb_antisym_eqb; auto.
      destruct HpR as (_ & _ & _ & HmaxR). now apply HmaxR.
  - intros Hnan. unfold main_historical_peak, Per_Capita_idxmax.
    destruct (get_country_data (Some (with_RangeIndex 0 recs)) country)
      as [|d0 rest] eqn:Ecd; [now eexists|].
    rewrite <- Ecd.
    replace (dropna (get_country_data (Some (with_RangeIndex 0 recs)) country))
      with (@nil Row); [now eexists|].
    symmetry. destruct (dropna _) as [|x l] eqn:Edrop; [reflexivity|].
    exfalso.
    assert (Hx : In x (dropna (get_country_data
                                 (Some (with_RangeIndex 0 recs)) country)))
      by (rewrite Edrop; now left).
    apply dropna_In in Hx as [Hx Hnum].
    apply get_country_data_In in Hx as [Hx Hc].
    unfold number in Hnum. rewrite (Hnan x Hx Hc) in Hnum. discriminate.
Qed.

Lemma historical_peak_earliest_witness :
  let df := with_RangeIndex 0 Scenario.records_tie in
  exists R peak,
    peak_row df "A" R /\
    main_historical_peak (get_country_data (Some df) "A")
      = ([], Return (peak, [Year R])) /\
    (peak =? Per_Capita_CO2_kg R)%float = true /\
    (forall r, peak_row df "A" r -> Year R <= Year r).
Proof.
  apply (proj1 (historical_peak_earliest Scenario.records_tie "A")).
  exists (mkRow 1 "A" 2000 5.0%float).
  split; [vm_compute; auto|]. split; reflexivity.
Defined.

(** ** Facts on binary64 multiplication *)

Module Binary64Facts.

Lemma digits2_pos_bounds p :
  2 ^ (Zpos (digits2_pos p) - 1) <= Zpos p < 2 ^ Zpos (digits2_pos p).
Proof.
  induction p as [p IH|p IH|]; cbn [digits2_pos];
    [rewrite Pos2Z.inj_succ..|simpl; lia];
    replace (Z.succ (Z.pos (digits2_pos p)) - 1)
      with (Z.succ (Z.pos (digits2_pos p) - 1)) by lia;
    rewrite !Z.pow_succ_r by lia; lia.
Qed.

Lemma digits2_pos_unique p d :
  2 ^ (d - 1) <= Zpos p < 2 ^ d -> Zpos (digits2_pos p) = d.
Proof.
  intros [Hlo Hhi]. pose proof (digits2_pos_bounds p) as [Hlo' Hhi'].
  assert (0 < d).
  { destruct (Z.ltb_spec 0 d); [assumption|].
    exfalso. destruct (Z.eq_dec d 0) as [->|]; [simpl in Hhi; lia|].
    rewrite Z.pow_neg_r in Hhi by lia. lia. }
  destruct (Z.lt_trichotomy (Zpos (digits2_pos p)) d) as [Hlt|[Heq|Hgt]];
    [exfalso|assumption|exfalso].
  - assert (2 ^ Zpos (digits2_pos p) <= 2 ^ (d - 1))
      by (apply Z.pow_le_mono_r; lia).
    lia.
  - assert (2 ^ d <= 2 ^ (Zpos (digits2_pos p) - 1))
      by (apply Z.pow_le_mono_r; lia).
    lia.
Qed.

Lemma shr_1_inv P k mrs :
  0 <= k -> shr_inv P k mrs -> shr_inv P (k + 1) (shr_1 mrs).
Proof.
  intros Hk (rem & Hm & Hrem & HP & Hr1 & Hr0 & Hs).
  assert (Hpow : 2 ^ (k + 1) = 2 * 2 ^ k)
    by (rewrite Z.add_1_r; now apply Z.pow_succ_r).
  assert (0 < 2 ^ k) by (apply Z.pow_pos_nonneg; lia).
  destruct mrs as [m r s]. cbn [shr_m shr_r shr_s] in *.
  assert (Hrs : orb r s = false -> 2 * rem = 0).
  { intros Hrs. apply orb_false_iff in Hrs as [-> ->].
    exact (Hs eq_refl). }
  destruct m as [|[p|p|]|p]; cbn [shr_1]; try lia;
    [exists rem|exists (rem + 2 ^ k)|exists rem|exists (rem + 2 ^ k)];
    cbn [shr_m shr_r shr_s]; rewrite Hpow;
    repeat split; try discriminate; try lia;
    intros Hrs'; specialize (Hrs Hrs'); lia.
Qed.

Lemma iter_shr_1_inv P n : forall k mrs,
  0 <= k -> shr_inv P k mrs -> shr_inv P (k + Zpos n) (iter_pos shr_1 n mrs).
Proof.
  induction n as [n IH|n IH|]; intros k mrs Hk Hinv; cbn [iter_pos].
  - replace (k + Zpos n~1) with ((k + 1 + Zpos n) + Zpos n) by lia.
    apply IH; [lia|]. apply IH; [lia|]. now apply shr_1_inv.
  - replace (k + Zpos n~0) with ((k + Zpos n) + Zpos n) by lia.
    apply IH; [lia|]. now apply IH.
  - now apply shr_1_inv.
Qed.

Lemma round_nearest_even_bounds P k mrs :
  0 <= k -> shr_inv P k mrs ->
  let m' := round_nearest_even (shr_m mrs) (loc_of_shr_record mrs) in
  0 <= m' /\ 2 ^ k * (2 * m' - 1) <= 2 * P <= 2 ^ k * (2 * m' + 1).
Proof.
  intros Hk (rem & Hm & Hrem & HP & Hr1 & Hr0 & Hs). cbv zeta.
  destruct mrs as [m r s]. cbn [shr_m shr_r shr_s] in *.
  set (t := 2 ^ k) in *.
  assert (0 < t) by (apply Z.pow_pos_nonneg; lia).
  destruct r, s; cbn [loc_of_shr_record round_nearest_even];
    try destruct (Z.even m);
    try specialize (Hr1 eq_refl); try specialize (Hr0 eq_refl);
    try specialize (Hs eq_refl); nia.
Qed.

Lemma pow_le_cancel t a b : 0 < t -> t * a <= t * b -> a <= b.
Proof. intros Ht H. now apply Z.mul_le_mono_pos_l in H. Qed.

(** Rounding the exact product [P * 2 ^ E] of two mantissas, [n] being the
    number of bits to drop: either the result is at the bottom of the
    range ([E + n = -1074]), or [P] has exactly [53 + n] bits. *)
Lemma binary_round_aux_rounded (P : positive) (E : Z) (n : positive) :
  Zpos P < 2 ^ 53 * 2 ^ Zpos n ->
  E + Zpos n = -1074 \/ (-1074 <= E + Zpos n /\ 2 ^ 52 * 2 ^ Zpos n <= Zpos P) ->
  E + Zpos n + 1 <= 971 ->
  rounded (Zpos P) E (Zpos n)
    (binary_round_aux 53 1024 false (Zpos P) E loc_Exact).
Proof.
  intros HP Hmode Hmax.
  assert (Ht : 0 < 2 ^ Zpos n) by (apply Z.pow_pos_nonneg; lia).
  pose proof (digits2_pos_bounds P) as [HdP _].
  assert (Hd : Zpos (digits2_pos P) <= 53 + Zpos n).
  { destruct (Z.le_gt_cases (Zpos (digits2_pos P)) (53 + Zpos n)); [assumption|].
    assert (2 ^ (53 + Zpos n) <= 2 ^ (Zpos (digits2_pos P) - 1))
      by (apply Z.pow_le_mono_r; lia).
    rewrite Z.pow_add_r in * by lia. lia. }
  assert (Hshift : fexp 53 1024 (Zpos (digits2_pos P) + E) - E = Zpos n).
  { destruct Hmode as [Hclamp|[Hlo Hfull]]; [unfold fexp, emin; lia|].
    replace (Zpos (digits2_pos P)) with (53 + Zpos n);
      [unfold fexp, emin; lia|].
    symmetry. apply digits2_pos_unique.
    replace (53 + Zpos n - 1) with (52 + Zpos n) by lia.
    rewrite !Z.pow_add_r by lia. lia. }
  assert (Hinv : shr_inv (Zpos P) (0 + Zpos n)
                   (iter_pos shr_1 n (Build_shr_record (Zpos P) false false))).
  { apply iter_shr_1_inv; [lia|]. exists 0. cbn [shr_m shr_r shr_s].
    repeat split; try lia; try discriminate. }
  rewrite Z.add_0_l in Hinv.
  pose proof (round_nearest_even_bounds _ _ _ (Pos2Z.is_nonneg n) Hinv)
    as [Hm1 Hb].
  unfold binary_round_aux, shr_fexp at 1.
  cbn [Zdigits2 shr_record_of_loc]. rewrite Hshift. cbn [shr].
  remember (round_nearest_even _ _) as m1 eqn:Em1 in *. clear Em1 Hinv.
  assert (H53 : m1 <= 2 ^ 53).
  { assert (H : 2 ^ Zpos n * (2 * m1 - 1) < 2 ^ Zpos n * 2 ^ 54) by lia.
    apply Z.mul_lt_mono_pos_l in H; lia. }
  exists m1. split; [lia|]. split; [exact Hb|].
  destruct m1 as [|pm|pm]; [|unfold shr_fexp|lia].
  { destruct Hmode as [Hclamp|[Hlo Hfull]]; [now rewrite Hclamp|lia]. }
  cbn [Zdigits2 shr_record_of_loc].
  destruct (Z.eqb_spec (Zpos pm) (2 ^ 53)) as [Heq|Hne].
  - change (2 ^ 53) with (Zpos 9007199254740992) in Heq. injection Heq as ->.
    change (Zpos (digits2_pos 9007199254740992)) with 54.
    replace (fexp 53 1024 (54 + (E + Zpos n)) - (E + Zpos n)) with 1
      by (unfold fexp, emin; lia).
    cbn [shr iter_pos].
    cbn [shr_1 shr_m].
    replace (E + Zpos n + 1 <=? 1024 - 53) with true
      by (symmetry; apply Z.leb_le; lia).
    reflexivity.
  - pose proof (digits2_pos_bounds pm) as [Hdm _].
    assert (Hdm53 : Zpos (digits2_pos pm) <= 53).
    { destruct (Z.le_gt_cases (Zpos (digits2_pos pm)) 53); [assumption|].
      assert (2 ^ 53 <= 2 ^ (Zpos (digits2_pos pm) - 1))
        by (apply Z.pow_le_mono_r; lia).
      lia. }
    assert (Hstay : fexp 53 1024 (Zpos (digits2_pos pm) + (E + Zpos n))
                    - (E + Zpos n) = 0).
    { destruct Hmode as [Hclamp|[Hlo Hfull]]; [unfold fexp, emin; lia|].
      replace (Zpos (digits2_pos pm)) with 53; [unfold fexp, emin; lia|].
      symmetry. apply digits2_pos_unique.
      assert (2 ^ Zpos n * 2 ^ 53 <= 2 ^ Zpos n * (2 * Zpos pm + 1)) by lia.
      apply pow_le_cancel in H; lia. }
    rewrite Hstay. cbn [shr shr_m].
    replace (E + Zpos n <=? 1024 - 53) with true
      by (symmetry; apply Z.leb_le; lia).
    reflexivity.
Qed.

Lemma SFmul_rounded (m c : positive) (e ec : Z) (n : positive) :
  Zpos m * Zpos c < 2 ^ 53 * 2 ^ Zpos n ->
  e + ec + Zpos n = -1074 \/
  (-1074 <= e + ec + Zpos n /\ 2 ^ 52 * 2 ^ Zpos n <= Zpos m * Zpos c) ->
  e + ec + Zpos n + 1 <= 971 ->
  rounded (Zpos m * Zpos c) (e + ec) (Zpos n)
    (SFmul 53 1024 (S754_finite false m e) (S754_finite false c ec)).
Proof.
  intros HP Hmode Hmax. cbn [SFmul xorb]. rewrite <- Pos2Z.inj_mul.
  apply binary_round_aux_rounded; rewrite ?Pos2Z.inj_mul; assumption.
Qed.

(** The product of [m * 2 ^ e] and a constant, rounded: the number of
    dropped bits is found by trying. *)
Ltac round_product H m c e ec :=
  first
    [ pose proof (SFmul_rounded m c e ec 52 ltac:(lia) ltac:(lia) ltac:(lia)) as H
    | pose proof (SFmul_rounded m c e ec 53 ltac:(lia) ltac:(lia) ltac:(lia)) as H
    | pose proof (SFmul_rounded m c e ec 54 ltac:(lia) ltac:(lia) ltac:(lia)) as H
    | pose proof (SFmul_rounded m c e ec 55 ltac:(lia) ltac:(lia) ltac:(lia)) as H
    | pose proof (SFmul_rounded m c e ec 56 ltac:(lia) ltac:(lia) ltac:(lia)) as H ].

Ltac open_rounded H :=
  let m1 := fresh "m" in
  let Hr := fresh "Hrange" in
  let Hb := fresh "Hbounds" in
  let Hv := fresh "Hval" in
  destruct H as (m1 & Hr & Hb & Hv);
  rewrite Hv; clear Hv;
  destruct m1 as [|?p|?p]; [| |lia];
  [|match goal with
    | |- context [Z.eqb (Zpos ?p) (2 ^ 53)] =>
        destruct (Z.eqb_spec (Zpos p) (2 ^ 53))
    end].

Ltac compare_keys :=
  apply FloatOrderFacts.SFltb_key; unfold not_nan, lex_lt; cbn [key];
  (split; [discriminate|]); (split; [discriminate|]); lia.

(** A finite number at or above the threshold: its mantissa and exponent. *)
Lemma finite_of_threshold (v : float) :
  (chain_threshold <=? v)%float = true ->
  (v <? infinity)%float = true ->
  exists m e,
    Prim2SF v = S754_finite false m e /\
    e <= 971 /\
    ((e = -1074 /\ 6 <= Zpos m < 2 ^ 53) \/
     (-1074 < e /\ 2 ^ 52 <= Zpos m < 2 ^ 53)).
Proof.
  intros Hlo Hhi. rewrite leb_spec in Hlo. rewrite ltb_spec in Hhi.
  pose proof (Prim2SF_valid v) as Hvalid.
  change (Prim2SF chain_threshold) with (S754_finite false 6 (-1074)) in Hlo.
  change (Prim2SF infinity) with (S754_infinity false) in Hhi.
  destruct (Prim2SF v) as [s|s| |s m e]; try discriminate Hlo;
    try (destruct s; discriminate).
  destruct s; [discriminate|].
  unfold SFleb in Hlo. cbn [SFcompare] in Hlo.
  rewrite Pos.compare_cont_spec in Hlo. cbn [Pos.switch_Eq] in Hlo.
  cbn [SpecFloat.valid_binary] in Hvalid.
  unfold bounded, canonical_mantissa, fexp, emin in Hvalid.
  apply andb_true_iff in Hvalid as [Hcan Hmax].
  apply Z.eqb_eq in Hcan. apply Z.leb_le in Hmax.
  change prec with 53 in *. change emax with 1024 in *.
  pose proof (digits2_pos_bounds m) as Hd.
  exists m, e. split; [reflexivity|]. split; [lia|].
  destruct (Z.compare_spec (-1074) e) as [Heq|Hlt|Hgt]; [left|right|discriminate].
  - subst e. split; [reflexivity|]. split.
    + destruct (Pos.compare_spec 6 m); try discriminate; lia.
    + assert (2 ^ Zpos (digits2_pos m) <= 2 ^ 53)
        by (apply Z.pow_le_mono_r; lia).
      lia.
  - split; [exact Hlt|].
    replace (Zpos (digits2_pos m)) with 53 in Hd by lia. exact Hd.
Qed.

(** The chain, on the specification of binary64 multiplication. *)
Lemma SFmul_chain_from_threshold (m : positive) (e : Z) :
  e <= 971 ->
  (e = -1074 /\ 6 <= Zpos m < 2 ^ 53) \/
  (-1074 < e /\ 2 ^ 52 <= Zpos m < 2 ^ 53) ->
  let v := S754_finite false m e in
  SFltb (SFmul 53 1024 v SF_0_1) (SFmul 53 1024 v SF_0_3) = true /\
  SFltb (SFmul 53 1024 v SF_0_3) (SFmul 53 1024 v SF_half) = true /\
  SFltb (SFmul 53 1024 v SF_half) v = true.
Proof.
  intros Hmax Hme. cbv zeta. unfold SF_0_1, SF_0_3, SF_half.
  assert (He : e = -1074 \/ e = -1073 \/ e = -1072 \/ e = -1071 \/ -1070 <= e)
    by lia.
  destruct (Z.lt_ge_cases (Zpos m * 7205759403792794) (2 ^ 105));
    destruct (Z.lt_ge_cases (Zpos m * 5404319552844595) (2 ^ 105));
    destruct He as [He | [He | [He | [He | He]]]];
    try (exfalso; lia);
    round_product ipattern:(H1) m 7205759403792794%positive e (-56);
    round_product ipattern:(H3) m 5404319552844595%positive e (-54);
    round_product ipattern:(H5) m 4503599627370496%positive e (-53);
    (split;
     [ open_rounded H1; open_rounded H3; compare_keys
     | split;
       [ open_rounded H3; open_rounded H5; compare_keys
       | open_rounded H5; compare_keys ] ]).
Qed.

End Binary64Facts.

(** C7, as the specification states it, fails in binary64: the smallest
    positive number is greater than zero, yet its three targets are all
    zero, so none is below the next; five times that number, the last
    one below [chain_threshold], has equal long-term and
    mid-term targets; and the near-term target of [+inf] is not below
    [+inf]. *)
Lemma reduction_targets_chain_breaks :
  (0 <? 0x1p-1074)%float = true /\
  get_reduction_targets 0x1p-1074%float =
    [("2030 (SDG Target)", 0%float); ("2040", 0%float); ("2050 (Net Zero)", 0%float)] /\
  (0x1p-1074 * 0x1.999999999999ap-4 <? 0x1p-1074 * 0x1.3333333333333p-2)%float = false /\
  (0x1p-1074 * 0x1.3333333333333p-2 <? 0x1p-1074 * 0.5)%float = false /\
  (0x5p-1074 * 0x1.999999999999ap-4 <? 0x5p-1074 * 0x1.3333333333333p-2)%float = false /\
  (0 <? infinity)%float = true /\
  (infinity * 0.5 <? infinity)%float = false.
Proof. repeat split; reflexivity. Qed.

(** C7, amended. For every current-emissions value [v],
    [get_reduction_targets] returns exactly three entries, the binary64
    products [v * 0.5], [v * 0.3] and [v * 0.1] under the labels of 2030,
    2040 and 2050; for every finite [v] from [6 * 2 ** -1074] on, the
    strict chain long-term < mid-term < near-term < [v] holds. *)
Theorem reduction_targets_chain (v : float) :
  (chain_threshold <=? v)%float = true ->
  (v <? infinity)%float = true ->
  exists near mid long,
    get_reduction_targets v =
      [("2030 (SDG Target)", near); ("2040", mid); ("2050 (Net Zero)", long)] /\
    near = (v * 0.5)%float /\
    mid = (v * 0x1.3333333333333p-2)%float /\
    long = (v * 0x1.999999999999ap-4)%float /\
    (long <? mid)%float = true /\
    (mid <? near)%float = true /\
    (near <? v)%float = true.
Proof.
  intros Hlo Hhi.
  destruct (Binary64Facts.finite_of_threshold v Hlo Hhi)
    as (m & e & Hv & Hmax & Hme).
  pose proof (Binary64Facts.SFmul_chain_from_threshold m e Hmax Hme)
    as (H13 & H35 & H5v).
  cbv zeta in *.
  do 3 eexists. split; [reflexivity|]. do 3 (split; [reflexivity|]).
  rewrite !ltb_spec, !mul_spec, Hv. unfold SF64mul.
  change (Prim2SF 0.5) with SF_half.
  change (Prim2SF 0x1.3333333333333p-2) with SF_0_3.
  change (Prim2SF 0x1.999999999999ap-4) with SF_0_1.
  change prec with 53. change emax with 1024.
  auto.
Qed.

Lemma reduction_targets_chain_witness :
  exists near mid long,
    get_reduction_targets 100%float =
      [("2030 (SDG Target)", near); ("2040", mid); ("2050 (Net Zero)", long)] /\
    near = (100 * 0.5)%float /\
    mid = (100 * 0x1.3333333333333p-2)%float /\
    long = (100 * 0x1.999999999999ap-4)%float /\
    (long <? mid)%float = true /\
    (mid <? near)%float = true /\
    (near <? 100)%float = true.
Proof.
  exact (reduction_targets_chain 100%float eq_refl eq_refl).
Defined.

(** ** The scenarios of the specification, evaluated *)

Section Scenarios.

Import Scenario.
Local Open Scope float_scope.

Example series_of_A :
  get_country_data (Some (with_RangeIndex 0 records_tie)) "A" =
  [mkRow 1 "A" 2000 5.0; mkRow 0 "A" 2001 5.0; mkRow 3 "A" 2002 3.0].
Proof. reflexivity. Qed.

Example series_of_unknown_country :
  get_country_data (Some df_AB) "Z" = [].
Proof. reflexivity. Qed.

Example current_emissions_exact_match :
  main_current_emissions (Some broken_model)
    (get_country_data (Some df_AB) "A") "A" 2019 = ([], Return 100.0).
Proof. reflexivity. Qed.

Example current_emissions_predicted :
  main_current_emissions (Some (constant_model 200.0))
    (get_country_data (Some df_AB) "A") "A" 2025 =
  ([call_predict [("A", 2025%Z)]], Return 200.0).
Proof. reflexivity. Qed.

Example current_emissions_fallback :
  main_current_emissions (Some broken_model)
    (get_country_data (Some df_AB) "A") "A" 2025 =
  ([call_predict [("A", 2025%Z)];
    st_error "Error calculating emissions: 'str' object has no attribute 'transform'"],
   Return 5000.0).
Proof. reflexivity. Qed.

Example reduction_targets_of_100 :
  get_reduction_targets 100.0 =
  [("2030 (SDG Target)", 50.0); ("2040", 30.0); ("2050 (Net Zero)", 10.0)].
Proof. reflexivity. Qed.

Example comparison_skips_unknown_country :
  comparison_loop (Some df_AB) ["A"; "Z"] [] =
  ([], Return [mkEntry "A" 2019 100.0]).
Proof. reflexivity. Qed.

Example peak_of_tie :
  main_historical_peak
    (get_country_data (Some (with_RangeIndex 0 records_tie)) "A") =
  ([], Return (5.0, [2000%Z])).
Proof. reflexivity. Qed.

Example main_with_rebuilt_model :
  main env_rebuild_ok widgets_A =
  ([st_warning "Original model has issues. Rebuilding model...";
    call_rebuild_model df_AB; call_fit; call_dump;
    st_render Title; st_render Subheader; st_render About;
    st_render (Select_country ["A"; "B"]); st_render Slider_year;
    st_render (Header "A's Emissions Profile");
    st_render (Metric_current 2019 100.0);
    st_render Metric_vs_global_average;
    st_render (Metric_peak 100.0 [2019%Z]);
    st_render (Header "Emissions Trend Analysis"); st_render Trend_chart;
    st_render (Header "Country Comparison");
    st_render (Multiselect_compare ["A"; "B"]);
    st_render (Comparison_chart [mkEntry "A" 2019 100.0; mkEntry "B" 2019 300.0]);
    st_render Comparison_table;
    st_render (Header "Emissions Reduction Targets");
    st_render (Target_chart
                 [("2030 (SDG Target)", 50.0); ("2040", 30.0);
                  ("2050 (Net Zero)", 10.0)] 100.0);
    st_render (Header "Climate Action Recommendations"); st_render Tips;
    st_render (Header "Download Data"); st_render Download_button;
    st_render Footer],
   Return tt).
Proof. reflexivity. Qed.

End Scenarios.

(** * Further properties *)

Section Resolution.

Variable env : Env.

Lemma load_resources_no_data e :
  read_csv env = Raise e ->
  load_resources env =
  (if is_FileNotFoundError e
   then [st_error ("Required files not found: " ++ exn_str e)%string;
         st_info "Please ensure 'country_emissions.csv' and 'country_emissions_model.pkl' are in the same directory"]
   else [st_error ("Error loading resources: " ++ exn_str e)%string],
   Return (None, None, [])).
Proof.
  intros Hcsv. unfold load_resources. rewrite Hcsv.
  cbn [lift bind try_except app]. now destruct (is_FileNotFoundError e).
Qed.

Lemma load_resources_usable recs :
  read_csv env = Return recs ->
  artifact_usable env = true ->
  exists m,
    joblib_load env = Return m /\
    load_resources env =
    ([call_predict test_data],
     Return (Some m, Some (with_RangeIndex 0 recs),
             sorted (unique (map Country (with_RangeIndex 0 recs))))).
Proof.
  intros Hcsv Hart. unfold artifact_usable in Hart.
  destruct (joblib_load env) as [m|e] eqn:Hload; [|discriminate].
  destruct (predict m test_data) as [p|e] eqn:Hp; [|discriminate].
  exists m. split; [reflexivity|].
  unfold load_resources. rewrite Hcsv, Hload.
  cbn [lift bind try_except app model_predict emit]. rewrite Hp. reflexivity.
Qed.

(** Whatever the files and the library answer, [load_resources] returns
    one of three shapes of triple. *)
Lemma load_resources_shapes :
  exists t model df country_list,
    load_resources env = (t, Return (model, df, country_list)) /\
    ((df = None /\ model = None /\ country_list = [] /\
      exists e, read_csv env = Raise e) \/
     (exists recs,
        read_csv env = Return recs /\
        df = Some (with_RangeIndex 0 recs) /\
        country_list = sorted (unique (map Country (with_RangeIndex 0 recs))))).
Proof.
  destruct (read_csv env) as [recs|e] eqn:Hcsv.
  - destruct (artifact_usable env) eqn:Hart.
    + destruct (load_resources_usable recs Hcsv Hart) as (m & _ & ->).
      do 4 eexists. split; [reflexivity|]. right. exists recs. auto.
    + destruct (load_resources_rebuild env recs Hcsv Hart)
        as (t0 & t & built & _ & _ & ->).
      do 4 eexists. split; [reflexivity|]. right. exists recs. auto.
  - rewrite (load_resources_no_data e Hcsv).
    do 4 eexists. split; [reflexivity|]. left.
    repeat split. now exists e.
Qed.

End Resolution.

(** X1. [load_resources] never raises, and the triple it returns is well
    formed: a model comes with the table it was resolved against (so the
    table is never [None] once a model is there), a missing table comes
    with no model and an empty country list, and a table that is there is
    the file's content with a [RangeIndex], its country list the sorted
    distinct countries. *)
Theorem load_resources_total (env : Env) :
  exists t model df country_list,
    load_resources env = (t, Return (model, df, country_list)) /\
    (model <> None -> df <> None) /\
    (df = None -> model = None /\ country_list = []) /\
    (forall emissions_df, df = Some emissions_df ->
       exists recs,
         read_csv env = Return recs /\
         emissions_df = with_RangeIndex 0 recs /\
         country_list = sorted (unique (map Country emissions_df))).
Proof.
  destruct (load_resources_shapes env)
    as (t & model & df & cl & Heq & [(-> & -> & -> & _)|(recs & Hcsv & -> & ->)]);
    exists t; do 3 eexists; (split; [exact Heq|]).
  - split; [congruence|]. split; [auto|]. discriminate.
  - split; [discriminate|]. split; [discriminate|].
    intros d [= <-]. exists recs. auto.
Qed.

(** X2. When reading the table raises, [load_resources] tries nothing
    else: it returns [(None, None, [])] after one error message, followed
    by the hint on the two files when the error is a [FileNotFoundError];
    the model file is not loaded and nothing is fitted. *)
Theorem load_resources_data_unavailable (env : Env) (e : exn) :
  read_csv env = Raise e ->
  result (load_resources env) = Return (None, None, []) /\
  filter is_st_error (trace (load_resources env)) =
    [st_error ((if is_FileNotFoundError e
                then "Required files not found: "
                else "Error loading resources: ") ++ exn_str e)%string] /\
  (In (st_info "Please ensure 'country_emissions.csv' and 'country_emissions_model.pkl' are in the same directory")
      (trace (load_resources env)) <-> is_FileNotFoundError e = true) /\
  filter is_call_predict (trace (load_resources env)) = [] /\
  filter is_call_rebuild_model (trace (load_resources env)) = [].
Proof.
  intros Hcsv. rewrite (load_resources_no_data env e Hcsv).
  destruct (is_FileNotFoundError e); cbn; repeat split; auto;
    intros H; try discriminate; intuition discriminate.
Qed.

Lemma load_resources_data_unavailable_witness :
  result (load_resources env_no_data) = Return (None, None, []) /\
  filter is_st_error (trace (load_resources env_no_data)) =
    [st_error "Required files not found: [Errno 2] No such file or directory: 'country_emissions.csv'"] /\
  (In (st_info "Please ensure 'country_emissions.csv' and 'country_emissions_model.pkl' are in the same directory")
      (trace (load_resources env_no_data)) <-> true = true) /\
  filter is_call_predict (trace (load_resources env_no_data)) = [] /\
  filter is_call_rebuild_model (trace (load_resources env_no_data)) = [].
Proof.
  exact (load_resources_data_unavailable env_no_data _ eq_refl).
Defined.

(** X3. When the table loads and the persisted model loads and answers
    the smoke test, [load_resources] returns that very model with the
    table: its only call is the one smoke-test prediction, it shows no
    message, and [rebuild_model] is not entered. *)
Theorem load_resources_keeps_usable_artifact (env : Env) (recs : list Record_) :
  read_csv env = Return recs ->
  artifact_usable env = true ->
  exists m,
    joblib_load env = Return m /\
    load_resources env =
    ([call_predict test_data],
     Return (Some m, Some (with_RangeIndex 0 recs),
             sorted (unique (map Country (with_RangeIndex 0 recs))))).
Proof. exact (load_resources_usable env recs). Qed.

Lemma load_resources_keeps_usable_artifact_witness :
  exists m,
    joblib_load env_artifact_ok = Return m /\
    load_resources env_artifact_ok =
    ([call_predict test_data],
     Return (Some m, Some Scenario.df_AB,
             sorted (unique (map Country Scenario.df_AB)))).
Proof.
  exact (load_resources_keeps_usable_artifact env_artifact_ok
           Scenario.records_AB eq_refl eq_refl).
Defined.

(** X4. [rebuild_model] never raises. It returns a model exactly when both
    fitting and persisting succeed, and then the fitted one; it shows an
    error message exactly when it returns [None]; and it attempts to
    persist exactly when fitting succeeded. *)
Theorem rebuild_model_outcome (env : Env) (emissions_df : DataFrame) :
  exists t built,
    rebuild_model env emissions_df = (t, Return built) /\
    (forall m, built = Some m <->
       pipeline_fit env emissions_df = Return m /\
       exists u, joblib_dump env m = Return u) /\
    (existsb is_st_error t = true <-> built = None) /\
    (In call_dump t <-> exists m, pipeline_fit env emissions_df = Return m).
Proof.
  pose proof (rebuild_model_cases env emissions_df) as H.
  destruct (pipeline_fit env emissions_df) as [m|e].
  - destruct (joblib_dump env m) as [u|e] eqn:Hdump; rewrite H;
      do 2 eexists; (split; [reflexivity|]); (split; [|split]).
    + intros m'. split.
      * intros [= <-]. split; [reflexivity|]. now exists u.
      * intros [[= <-] _]. reflexivity.
    + cbn. split; discriminate.
    + split; [intros _; now exists m|]. intros _. cbn. auto.
    + intros m'. split; [discriminate|].
      intros [[= <-] [u Hu]]. congruence.
    + cbn. split; reflexivity.
    + split; [intros _; now exists m|]. intros _. cbn. auto.
  - rewrite H. do 2 eexists. split; [reflexivity|]. split; [|split].
    + intros m'. split; [discriminate|]. intros [Hfit _]. discriminate.
    + cbn. split; reflexivity.
    + split.
      * cbn. intros Hin. exfalso. intuition discriminate.
      * intros [m' Hm']. discriminate.
Qed.

(** X5. [fix_model.py] and [rebuild_model] agree on a table that loads:
    the script prints "Fixed model saved!" and ends normally exactly when
    [rebuild_model] returns a model for that table; and when the script
    stops on an exception, having printed nothing, [rebuild_model]
    reports that same exception and returns [None]. *)
Theorem fix_model_agrees_with_rebuild_model (env : Env) (recs : list Record_) :
  read_csv env = Return recs ->
  let emissions_df := with_RangeIndex 0 recs in
  (fix_model env = (["Fixed model saved!"], Return tt) <->
   exists m, result (rebuild_model env emissions_df) = Return (Some m)) /\
  (forall e,
     snd (fix_model env) = Raise e ->
     fst (fix_model env) = [] /\
     result (rebuild_model env emissions_df) = Return None /\
     In (st_error ("Error rebuilding model: " ++ exn_str e)%string)
        (trace (rebuild_model env emissions_df))).
Proof.
  intros Hcsv. cbv zeta. unfold fix_model. rewrite Hcsv.
  pose proof (rebuild_model_cases env (with_RangeIndex 0 recs)) as H.
  destruct (pipeline_fit env (with_RangeIndex 0 recs)) as [m|e].
  - destruct (joblib_dump env m) as [[]|e]; rewrite H; cbn; split.
    + split; [intros _; now exists m|reflexivity].
    + discriminate.
    + split; [discriminate|]. intros [m' Hm']. discriminate.
    + intros e' [= <-]. repeat split; auto.
  - rewrite H; cbn. split.
    + split; [discriminate|]. intros [m' Hm']. discriminate.
    + intros e' [= <-]. repeat split; auto.
Qed.

Lemma fix_model_agrees_with_rebuild_model_witness :
  (fix_model Scenario.env_dump_fails = (["Fixed model saved!"], Return tt) <->
   exists m, result (rebuild_model Scenario.env_dump_fails Scenario.df_AB)
             = Return (Some m)) /\
  (forall e,
     snd (fix_model Scenario.env_dump_fails) = Raise e ->
     fst (fix_model Scenario.env_dump_fails) = [] /\
     result (rebuild_model Scenario.env_dump_fails Scenario.df_AB) = Return None /\
     In (st_error ("Error rebuilding model: " ++ exn_str e)%string)
        (trace (rebuild_model Scenario.env_dump_fails Scenario.df_AB))).
Proof.
  exact (fix_model_agrees_with_rebuild_model Scenario.env_dump_fails
           Scenario.records_AB eq_refl).
Defined.

Section CountryList.

Lemma unique_from_In values : forall seen x,
  In x (unique_from seen values) <-> In x values /\ ~ In x seen.
Proof.
  induction values as [|v rest IH]; intros seen x; simpl; [tauto|].
  destruct (existsb (String.eqb v) seen) eqn:E.
  - apply existsb_exists in E as (y & Hy & Heq). apply String.eqb_eq in Heq. subst y.
    rewrite IH. split; [tauto|].
    intros [[<-|Hin] Hnot]; [contradiction|tauto].
  - assert (Hv : ~ In v seen).
    { intros Hin. apply not_true_iff_false in E. apply E.
      apply existsb_exists. exists v. split; [assumption|apply String.eqb_refl]. }
    simpl. rewrite IH. simpl. split.
    + intros [<-|[Hin Hnot]]; [tauto|]. split; [tauto|]. intros H. apply Hnot. now right.
    + intros [[<-|Hin] Hnot]; [now left|].
      destruct (String.eqb_spec v x) as [->|Hne]; [now left|].
      right. split; [assumption|]. intros [H|H]; contradiction.
Qed.

Lemma unique_from_NoDup values : forall seen, NoDup (unique_from seen values).
Proof.
  induction values as [|v rest IH]; intros seen; simpl; [constructor|].
  destruct (existsb (String.eqb v) seen); [apply IH|].
  constructor; [|apply IH].
  rewrite unique_from_In. intros [_ Hnot]. apply Hnot. now left.
Qed.

Lemma insert_string_perm x l : Permutation (x :: l) (insert_string x l).
Proof.
  induction l as [|y l IH]; simpl; [reflexivity|].
  destruct (String.leb x y); [reflexivity|].
  rewrite perm_swap. now constructor.
Qed.

Lemma sorted_perm l : Permutation l (sorted l).
Proof.
  induction l as [|x l IH]; simpl; [constructor|].
  rewrite <- insert_string_perm. now constructor.
Qed.

Lemma insert_string_ascending x l :
  ascending_strings l -> ascending_strings (insert_string x l).
Proof.
  unfold ascending_strings.
  induction l as [|y l IH]; simpl; intros Hs.
  - repeat constructor.
  - destruct (String.leb x y) eqn:E.
    + constructor; [assumption|]. now constructor.
    + inversion Hs as [|? ? Hs' Hhd]; subst.
      constructor; [now apply IH|].
      assert (Hyx : String.leb y x = true)
        by (destruct (String.leb_total x y); congruence).
      destruct l as [|z l]; simpl.
      * now constructor.
      * destruct (String.leb x z); constructor; [assumption|].
        now inversion Hhd.
Qed.

Lemma sorted_ascending l : ascending_strings (sorted l).
Proof.
  induction l as [|x l IH]; simpl; [constructor|].
  now apply insert_string_ascending.
Qed.

Lemma country_list_of df :
  let country_list := sorted (unique (map Country df)) in
  NoDup country_list /\
  ascending_strings country_list /\
  (forall c, In c country_list <-> has_records df c = true).
Proof.
  cbv zeta. split; [|split].
  - eapply Permutation_NoDup; [apply sorted_perm|apply unique_from_NoDup].
  - apply sorted_ascending.
  - intros c. unfold has_records. rewrite existsb_exists. split.
    + intros Hin. apply (Permutation_in _ (Permutation_sym (sorted_perm _))) in Hin.
      apply unique_from_In in Hin as [Hin _].
      apply in_map_iff in Hin as (r & Hr & Hin).
      exists r. split; [assumption|]. now apply String.eqb_eq.
    + intros (r & Hin & Hc). apply String.eqb_eq in Hc.
      apply (Permutation_in _ (sorted_perm _)).
      apply unique_from_In. split; [|intros []].
      rewrite <- Hc. now apply in_map.
Qed.

End CountryList.

(** X6. The country list [load_resources] returns with a table holds each
    country of the table once, in ascending order, and no other string: a
    country is offered for selection exactly when [get_country_data] finds
    rows for it. *)
Theorem country_list_offers_countries_with_data
    (env : Env) (model : option Model) (emissions_df : DataFrame)
    (country_list : list string) :
  result (load_resources env) = Return (model, Some emissions_df, country_list) ->
  NoDup country_list /\
  ascending_strings country_list /\
  (forall c, In c country_list <->
             empty (get_country_data (Some emissions_df) c) = false).
Proof.
  intros Hres.
  destruct (load_resources_shapes env)
    as (t & model' & df & cl & Heq & [(-> & _)|(recs & _ & -> & ->)]);
    rewrite Heq in Hres; unfold result in Hres; cbn [snd] in Hres;
    [discriminate|].
  injection Hres as _ <- <-.
  destruct (country_list_of (with_RangeIndex 0 recs)) as (Hnd & Hasc & Hin).
  split; [exact Hnd|]. split; [exact Hasc|].
  intros c. rewrite Hin, empty_get_country_data.
  destruct (has_records (with_RangeIndex 0 recs) c); simpl; split; congruence.
Qed.

Lemma country_list_offers_countries_with_data_witness :
  NoDup ["A"; "B"] /\
  ascending_strings ["A"; "B"] /\
  (forall c, In c ["A"; "B"] <->
             empty (get_country_data (Some Scenario.df_AB) c) = false).
Proof.
  exact (country_list_offers_countries_with_data Scenario.env_rebuild_ok
           (Some (Scenario.constant_model 200.0%float)) Scenario.df_AB
           ["A"; "B"] eq_refl).
Defined.

Section Widgets.

Lemma list_contains_In x options :
  list_contains x options = true <-> In x options.
Proof.
  unfold list_contains. rewrite existsb_exists. split.
  - intros (y & Hin & Heq). apply String.eqb_eq in Heq. now subst.
  - intros Hin. exists x. split; [assumption|apply String.eqb_refl].
Qed.

Lemma list_index_found x options :
  In x options ->
  exists i, list_index x options = Return i /\ nth_error options i = Some x.
Proof.
  induction options as [|y rest IH]; simpl; [contradiction|].
  intros Hin. destruct (String.eqb_spec y x) as [->|Hne].
  - exists 0%nat. auto.
  - destruct Hin as [Heq|Hin]; [contradiction|].
    destruct (IH Hin) as (i & -> & Hnth). exists (S i). auto.
Qed.

End Widgets.

(** X7. The defaults [main] passes to its widgets are valid for every
    country list: computing the index of the select box never raises (the
    membership test guards [list.index]), the index points at "United
    States" when that is a country of the list and at the first country
    otherwise, and the default of the multiselect holds only countries of
    the list. *)
Theorem widget_defaults_valid (country_list : list string) :
  (exists i,
      select_country_index country_list = Return i /\
      (country_list <> [] -> (i < List.length country_list)%nat) /\
      (In "United States" country_list ->
       nth_error country_list i = Some "United States") /\
      (~ In "United States" country_list -> i = 0%nat)) /\
  incl (compare_default country_list) country_list.
Proof.
  split.
  - unfold select_country_index.
    destruct (list_contains "United States" country_list) eqn:E.
    + apply list_contains_In in E.
      destruct (list_index_found _ _ E) as (i & -> & Hnth).
      exists i. split; [reflexivity|]. split; [|split].
      * intros _. apply nth_error_Some. congruence.
      * auto.
      * contradiction.
    + exists 0%nat. split; [reflexivity|]. split; [|split].
      * destruct country_list; [congruence|simpl; lia].
      * intros Hin. apply list_contains_In in Hin. congruence.
      * reflexivity.
  - unfold compare_default.
    destruct (forallb _ _) eqn:E; [|intros x []].
    rewrite forallb_forall in E. intros x Hx.
    apply list_contains_In. now apply E.
Qed.

Section SeriesAgain.




End SeriesAgain.



Section SessionState.

Lemma session_get_app key state k v :
  session_get key (state ++ [(k, v)]) =
  match session_get key state with
  | Some x => Some x
  | None => if String.eqb k key then Some v else None
  end.
Proof.
  induction state as [|[k0 v0] rest IH]; simpl; [reflexivity|].
  destruct (String.eqb k0 key); [reflexivity|exact IH].
Qed.

Lemma session_contains_get key state :
  session_contains key state = true <-> session_get key state <> None.
Proof.
  unfold session_contains.
  induction state as [|[k0 v0] rest IH]; simpl; [split; [discriminate|congruence]|].
  destruct (String.eqb k0 key); simpl; [split; [discriminate|reflexivity]|exact IH].
Qed.

Lemma session_setdefault_get key value state k :
  session_get k (session_setdefault key value state) =
  match session_get k state with
  | Some x => Some x
  | None => if String.eqb key k then Some value else None
  end.
Proof.
  unfold session_setdefault.
  destruct (session_contains key state) eqn:E.
  - destruct (session_get k state) eqn:G; [reflexivity|].
    destruct (String.eqb_spec key k) as [->|_]; [|reflexivity].
    apply session_contains_get in E. congruence.
  - apply session_get_app.
Qed.

Lemma session_setdefault_contains key value state :
  session_contains key (session_setdefault key value state) = true.
Proof.
  apply session_contains_get. rewrite session_setdefault_get.
  destruct (session_get key state); [discriminate|].
  rewrite String.eqb_refl. discriminate.
Qed.

Lemma session_setdefault_keeps key value state k :
  session_contains k state = true ->
  session_contains k (session_setdefault key value state) = true.
Proof.
  rewrite !session_contains_get, session_setdefault_get.
  destruct (session_get k state); [discriminate|congruence].
Qed.

End SessionState.

(** X9. [init_session] only fills in what is missing of
    [st.session_state]: a key that is set keeps its value, the keys
    [comparison_data] and [user_location] are set afterwards (to the empty
    list and to "United States" when they were not), no other key
    appears, and a second call changes nothing. *)
Theorem init_session_state_fills_defaults (state : session_state) :
  (forall key value, session_get key state = Some value ->
     session_get key (init_session_state state) = Some value) /\
  (session_get "comparison_data" state = None ->
     session_get "comparison_data" (init_session_state state)
       = Some (Session_list [])) /\
  (session_get "user_location" state = None ->
     session_get "user_location" (init_session_state state)
       = Some (Session_str "United States")) /\
  (forall key, key <> "comparison_data" -> key <> "user_location" ->
     session_get key (init_session_state state) = session_get key state) /\
  init_session_state (init_session_state state) = init_session_state state.
Proof.
  unfold init_session_state. split; [|split; [|split; [|split]]].
  - intros key value Hget. rewrite !session_setdefault_get, Hget. reflexivity.
  - intros Hnone. rewrite !session_setdefault_get, Hnone. reflexivity.
  - intros Hnone. rewrite !session_setdefault_get, Hnone. reflexivity.
  - intros key H1 H2. rewrite !session_setdefault_get.
    destruct (session_get key state); [reflexivity|].
    apply String.eqb_neq in H1, H2.
    rewrite String.eqb_sym in H1. rewrite String.eqb_sym in H2.
    now rewrite H1, H2.
  - set (s1 := session_setdefault "comparison_data" (Session_list []) state).
    set (s2 := session_setdefault "user_location" (Session_str "United States") s1).
    assert (H1 : session_contains "comparison_data" s2 = true)
      by (apply session_setdefault_keeps, session_setdefault_contains).
    assert (H2 : session_contains "user_location" s2 = true)
      by apply session_setdefault_contains.
    unfold session_setdefault at 2. rewrite H1.
    unfold session_setdefault at 1. now rewrite H2.
Qed.

Section Metrics.

Variable env : Env.

Lemma main_current_emissions_returns model country_data country year :
  exists v, result (main_current_emissions model country_data country year) = Return v.
Proof.
  destruct (Year_values_contain country_data year) eqn:E.
  - destruct (main_current_emissions_stored model country_data country year E)
      as (r & _ & _ & ->). now eexists.
  - unfold main_current_emissions. rewrite E.
    pose proof (calculate_emissions_cases model country year) as H. cbv zeta in H.
    destruct model as [m|]; [|rewrite H; now eexists].
    destruct (predict m [(country, year)]) as [[|v rest]|e];
      rewrite H; now eexists.
Qed.

End Metrics.

(** X10. [calculate_emissions] with a model that answers: when
    [model.predict] returns a non-empty array, the result is its first
    element, the model was called once, on the one-row frame of the
    country and year, and no message is shown; when it returns an empty
    array, indexing fails and the handler returns the fallback [5000.0]
    with an error message. *)
Theorem calculate_emissions_uses_first_prediction
    (m : Model) (country : string) (year : Z) :
  (forall v rest,
      predict m [(country, year)] = Return (v :: rest) ->
      calculate_emissions (Some m) country year =
      ([call_predict [(country, year)]], Return v)) /\
  (predict m [(country, year)] = Return [] ->
   result (calculate_emissions (Some m) country year) = Return 5000.0%float /\
   existsb is_st_error (trace (calculate_emissions (Some m) country year)) = true).
Proof.
  pose proof (calculate_emissions_cases (Some m) country year) as H.
  cbv beta iota zeta in H. split.
  - intros v rest Hp. now rewrite Hp in H.
  - intros Hp. rewrite Hp in H. rewrite H. split; reflexivity.
Qed.

(** X11. The trend chart marks the analysis year as a prediction only
    when the value shown is one: whenever the marker is drawn (the year is
    beyond the last year of the series), the year is not in the series and
    the current-emissions value is the result of [calculate_emissions]. *)
Theorem prediction_marker_only_on_predictions
    (model : option Model) (country_data : DataFrame)
    (country : string) (year : Z) :
  main_prediction_marker country_data year = true ->
  Year_values_contain country_data year = false /\
  main_current_emissions model country_data country year =
    calculate_emissions model country year.
Proof.
  unfold main_prediction_marker. intros Hmark.
  pose proof (Year_max_spec country_data) as Hmax.
  destruct (Year_max country_data) as [latest|]; [|discriminate].
  destruct Hmax as [_ Hle]. apply Z.ltb_lt in Hmark.
  assert (Hno : Year_values_contain country_data year = false).
  { apply not_true_iff_false. intros Hc.
    apply Year_values_contain_true in Hc as (r & Hin & Hy).
    specialize (Hle r Hin). lia. }
  split; [exact Hno|].
  unfold main_current_emissions. now rewrite Hno.
Qed.

Lemma prediction_marker_only_on_predictions_witness :
  Year_values_contain (get_country_data (Some Scenario.df_AB) "A") 2025 = false /\
  main_current_emissions (Some (Scenario.constant_model 200.0%float))
    (get_country_data (Some Scenario.df_AB) "A") "A" 2025 =
    calculate_emissions (Some (Scenario.constant_model 200.0%float)) "A" 2025.
Proof.
  exact (prediction_marker_only_on_predictions
           (Some (Scenario.constant_model 200.0%float))
           (get_country_data (Some Scenario.df_AB) "A") "A" 2025 eq_refl).
Defined.

Section MainPage.

Variable env : Env.

Lemma main_unfolds (w : Widgets) :
  main env w =
  (resources <- load_resources env ;;
   let '(model, emissions_df, country_list) := resources in
   match model with
   | None =>
       emit (st_error "Application cannot start without a working model. Please check your data files.")
   | Some _ =>
       init_session ;;
       emit (st_render Title) ;;
       emit (st_render Subheader) ;;
       emit (st_render About) ;;
       emit (st_render (Select_country country_list)) ;;
       emit (st_render Slider_year) ;;
       let country_data := get_country_data emissions_df (selected_country w) in
       (if negb (empty country_data)
        then main_profile model emissions_df country_list w country_data
        else ret tt) ;;
       main_download env w ;;
       emit (st_render Footer)
   end)%py.
Proof. reflexivity. Qed.

Lemma main_download_cases (w : Widgets) :
  main_download env w =
  match open_csv_read env with
  | Return _ =>
      (st_render (Header "Download Data") :: st_render Download_button ::
         (if download_clicked w
          then [st_success "Dataset downloaded successfully!"] else []),
       Return tt)
  | Raise e =>
      if is_FileNotFoundError e
      then ([st_render (Header "Download Data");
             st_warning "CSV file not found for download"], Return tt)
      else ([st_render (Header "Download Data")], Raise e)
  end.
Proof.
  unfold main_download.
  destruct (open_csv_read env) as [[]|e]; cbn.
  - now destruct (download_clicked w).
  - now destruct (is_FileNotFoundError e).
Qed.

Lemma main_comparison_spec (df : DataFrame) (country_list : list string) (w : Widgets) :
  let requested := selected_country w :: compare_countries w in
  exists chart,
    main_comparison (Some df) country_list w =
    (st_render (Header "Country Comparison") ::
     st_render (Multiselect_compare country_list) :: chart, Return tt) /\
    ((chart = [] /\
      (compare_countries w = [] \/ filter (has_records df) requested = [])) \/
     (exists comparison_data,
        chart = [st_render (Comparison_chart comparison_data);
                 st_render Comparison_table] /\
        compare_countries w <> [] /\
        comparison_data <> [] /\
        map entry_Country comparison_data = filter (has_records df) requested /\
        Forall (latest_of df) comparison_data)).
Proof.
  cbv zeta. unfold main_comparison.
  destruct (compare_countries w) as [|c rest] eqn:Ec.
  - exists []. split; [reflexivity|]. left. auto.
  - destruct (comparison_loop_spec df ([selected_country w] ++ c :: rest) [])
      as (entries & Heq & Hmap & Hall).
    rewrite Heq. cbn [app] in Hmap. simpl app.
    destruct entries as [|en entries].
    + exists []. split; [reflexivity|]. left. split; [reflexivity|].
      right. now rewrite <- Hmap.
    + exists [st_render (Comparison_chart (en :: entries)); st_render Comparison_table].
      split; [reflexivity|]. right. exists (en :: entries).
      repeat split; try assumption; discriminate.
Qed.

Lemma argmax_scan_In rows : forall best,
  In (argmax_scan best rows) (best :: rows).
Proof.
  induction rows as [|r rest IH]; intros best; simpl; [now left|].
  destruct (_ <? _)%float.
  - right. apply IH.
  - destruct (IH best) as [H|H]; [now left|right; now right].
Qed.

(** The peak metric is computed exactly when some value of the series is
    a number. *)
Lemma main_historical_peak_cases (country_data : DataFrame) :
  NoDup (map label country_data) ->
  (all_nan country_data /\
   exists e, main_historical_peak country_data = ([], Raise e)) \/
  ((exists r, In r country_data /\ number (Per_Capita_CO2_kg r)) /\
   exists R, In R country_data /\
     main_historical_peak country_data =
     ([], Return (Per_Capita_max country_data, [Year R]))).
Proof.
  intros Hlabels. unfold main_historical_peak, Per_Capita_idxmax.
  destruct country_data as [|d0 df'] eqn:Ecd.
  - left. split; [intros r []|now eexists].
  - rewrite <- Ecd in *. clear Ecd d0 df'.
    destruct (dropna country_data) as [|r0 rest] eqn:Edrop.
    + left. split; [|now eexists]. intros r Hr.
      destruct (is_nan (Per_Capita_CO2_kg r)) eqn:E; [reflexivity|].
      assert (H : In r (dropna country_data)) by now apply dropna_In.
      now rewrite Edrop in H.
    + right.
      assert (Hsub : forall x, In x (r0 :: rest) ->
                In x country_data /\ number (Per_Capita_CO2_kg x))
        by (intros x Hx; apply dropna_In; now rewrite Edrop).
      split; [exists r0; apply Hsub; now left|].
      destruct (Hsub _ (argmax_scan_In rest r0)) as [HinR _].
      exists (argmax_scan r0 rest). split; [exact HinR|].
      cbn [lift bind app].
      now rewrite (loc_Year_unique country_data _ Hlabels HinR).
Qed.

End MainPage.

Section MainProfile.

Lemma main_profile_cases (model : option Model) (df : DataFrame)
    (country_list : list string) (w : Widgets) (country_data : DataFrame) :
  NoDup (map label country_data) ->
  exists t0 c,
    main_current_emissions model country_data
      (selected_country w) (analysis_year w) = (t0, Return c) /\
    ((all_nan country_data /\
      exists e,
        main_profile model (Some df) country_list w country_data =
        (t0 ++ [st_render (Header (selected_country w ++ "'s Emissions Profile")%string);
                st_render (Metric_current (analysis_year w) c);
                st_render Metric_vs_global_average],
         Raise e)) \/
     ((exists r, In r country_data /\ number (Per_Capita_CO2_kg r)) /\
      exists R chart,
        In R country_data /\
        main_comparison (Some df) country_list w =
        (st_render (Header "Country Comparison") ::
         st_render (Multiselect_compare country_list) :: chart, Return tt) /\
        main_profile model (Some df) country_list w country_data =
        (t0 ++ [st_render (Header (selected_country w ++ "'s Emissions Profile")%string);
                st_render (Metric_current (analysis_year w) c);
                st_render Metric_vs_global_average;
                st_render (Metric_peak (Per_Capita_max country_data) [Year R]);
                st_render (Header "Emissions Trend Analysis");
                st_render Trend_chart;
                st_render (Header "Country Comparison");
                st_render (Multiselect_compare country_list)] ++
         chart ++
         [st_render (Header "Emissions Reduction Targets");
          st_render (Target_chart (get_reduction_targets c) c);
          st_render (Header "Climate Action Recommendations");
          st_render Tips],
         Return tt))).
Proof.
  intros Hlabels.
  destruct (main_current_emissions_returns model country_data
              (selected_country w) (analysis_year w)) as (c & Hc).
  destruct (main_current_emissions model country_data
              (selected_country w) (analysis_year w)) as [t0 [c'|e]] eqn:Ecur;
    unfold result in Hc; cbn [snd] in Hc; [|discriminate].
  injection Hc as ->.
  exists t0, c. split; [reflexivity|].
  destruct (main_historical_peak_cases country_data Hlabels)
    as [(Hnan & e & Hpeak)|(Hnum & R & HinR & Hpeak)].
  - left. split; [exact Hnan|]. exists e.
    unfold main_profile. rewrite Ecur, Hpeak. reflexivity.
  - right. split; [exact Hnum|].
    destruct (main_comparison_spec df country_list w) as (chart & Hcmp & _).
    exists R, chart. split; [exact HinR|]. split; [exact Hcmp|].
    unfold main_profile. rewrite Ecur, Hpeak, Hcmp.
    reflexivity.
Qed.

End MainProfile.

Section MainOutcome.

Variable env : Env.

Lemma load_resources_shows_no_view (v : view) :
  ~ In (st_render v) (trace (load_resources env)).
Proof.
  destruct (read_csv env) as [recs|e] eqn:Hcsv.
  - destruct (artifact_usable env) eqn:Hart.
    + destruct (load_resources_usable env recs Hcsv Hart) as (m & _ & ->).
      simpl. intuition discriminate.
    + destruct (load_resources_rebuild env recs Hcsv Hart)
        as (t0 & t & built & Hr & Ht0 & ->).
      destruct (rebuild_model_total env (with_RangeIndex 0 recs))
        as (t' & built' & Hr' & _ & Hnorender & _).
      rewrite Hr in Hr'. injection Hr' as <- <-.
      cbn [trace fst]. intros Hin.
      apply in_app_or in Hin as [Hin|[Hin|Hin]].
      * apply Ht0 in Hin as (? & ?). discriminate.
      * discriminate.
      * apply in_app_or in Hin as [Hin|Hin]; [now apply Hnorender in Hin|].
        destruct built; simpl in Hin; intuition discriminate.
  - rewrite (load_resources_no_data env e Hcsv).
    destruct (is_FileNotFoundError e); simpl; intuition discriminate.
Qed.

Lemma load_resources_resolved m df cl :
  result (load_resources env) = Return (Some m, df, cl) ->
  exists recs, df = Some (with_RangeIndex 0 recs).
Proof.
  intros Hres.
  destruct (load_resources_shapes env)
    as (t & model' & df' & cl' & Heq & [(-> & -> & _)|(recs & _ & -> & ->)]);
    rewrite Heq in Hres; unfold result in Hres; cbn [snd] in Hres;
    [discriminate|].
  injection Hres as _ <- _. now exists recs.
Qed.

Lemma main_resolved (w : Widgets) m df cl :
  result (load_resources env) = Return (Some m, df, cl) ->
  let country_data := get_country_data df (selected_country w) in
  let body :=
    if negb (empty country_data)
    then main_profile (Some m) df cl w country_data
    else ret tt in
  main env w =
  (trace (load_resources env) ++
   map st_render [Title; Subheader; About; Select_country cl; Slider_year] ++
   trace body ++
   match result body with
   | Raise _ => []
   | Return _ =>
       trace (main_download env w) ++
       match result (main_download env w) with
       | Return _ => [st_render Footer]
       | Raise _ => []
       end
   end,
   match result body with
   | Raise e => Raise e
   | Return _ =>
       match result (main_download env w) with
       | Return _ => Return tt
       | Raise e => Raise e
       end
   end).
Proof.
  intros Hload. cbv zeta. rewrite main_unfolds.
  destruct (load_resources env) as [t o]. unfold result in Hload.
  cbn [snd] in Hload. subst o.
  unfold init_session. cbn [bind ret emit app map trace fst].
  destruct (if negb (empty (get_country_data df (selected_country w)))
            then main_profile (Some m) df cl w
                   (get_country_data df (selected_country w))
            else ret tt) as [tb [[]|e]];
    [destruct (main_download env w) as [td [[]|e']]|];
    cbn [bind ret emit app map trace result fst snd];
    rewrite ?app_nil_r, <- ?app_assoc; reflexivity.
Qed.

End MainOutcome.


(** X13. [main] shows a view exactly when [load_resources] resolved a
    model. [load_resources] itself shows messages only; with no model,
    [main] adds the one message that the application cannot start and
    returns; with a model, the title, the subheader, the sidebar, the
    country selector with the country list and the year slider follow the
    messages of [load_resources], in this order, whatever comes next. *)
Theorem main_guard (env : Env) (w : Widgets) :
  (forall v, ~ In (st_render v) (trace (load_resources env))) /\
  match result (load_resources env) with
  | Raise _ => False
  | Return (None, _, _) =>
      main env w =
      (trace (load_resources env) ++
       [st_error "Application cannot start without a working model. Please check your data files."],
       Return tt)
  | Return (Some _, _, country_list) =>
      exists rest,
        trace (main env w) =
        trace (load_resources env) ++
        map st_render
          [Title; Subheader; About; Select_country country_list; Slider_year] ++
        rest
  end.
Proof.
  split; [apply load_resources_shows_no_view|].
  destruct (result (load_resources env)) as [[[[m|] df] cl]|e] eqn:Hres.
  - rewrite (main_resolved env w m df cl Hres). cbn [trace fst].
    eexists. reflexivity.
  - unfold main. destruct (load_resources env) as [t o].
    unfold result in Hres. cbn [snd] in Hres. subst o. reflexivity.
  - destruct (load_resources_shapes env) as (t & ? & ? & ? & Heq & _).
    rewrite Heq in Hres. discriminate.
Qed.

Section MainRun.

Variable env : Env.
Variable w : Widgets.

Lemma main_current_emissions_trace (model : option Model)
    (country_data : DataFrame) (country : string) (year : Z) :
  let t := trace (main_current_emissions model country_data country year) in
  (forall v, ~ In (st_render v) t) /\
  filter is_call_predict t =
  if Year_values_contain country_data year then []
  else match model with
       | Some _ => [call_predict [(country, year)]]
       | None => []
       end.
Proof.
  cbv zeta. destruct (Year_values_contain country_data year) eqn:E.
  - destruct (main_current_emissions_stored model country_data country year E)
      as (r & _ & _ & ->). split; [intros v []|reflexivity].
  - unfold main_current_emissions. rewrite E.
    pose proof (calculate_emissions_cases model country year) as H.
    cbv beta iota zeta in H.
    destruct model as [m|];
      [destruct (predict m [(country, year)]) as [[|v rest]|e]|];
      rewrite H; (split; [intros v' Hin; simpl in Hin; intuition discriminate
                         |reflexivity]).
Qed.

Lemma main_download_trace :
  let t := trace (main_download env w) in
  ~ In (st_render Footer) t /\
  filter is_call_predict t = [] /\
  (result (main_download env w) = Return tt <->
   forall e, open_csv_read env = Raise e -> is_FileNotFoundError e = true).
Proof.
  cbv zeta. rewrite main_download_cases.
  destruct (open_csv_read env) as [[]|e].
  - destruct (download_clicked w); (split; [|split; [reflexivity|]]);
      try (simpl; intuition discriminate);
      (split; [intros _ e He; discriminate|reflexivity]).
  - destruct (is_FileNotFoundError e) eqn:E; (split; [|split; [reflexivity|]]);
      try (simpl; intuition discriminate); split.
    + intros _ e' He. congruence.
    + reflexivity.
    + discriminate.
    + intros H. specialize (H e eq_refl). congruence.
Qed.

(** What the profile block adds to the page, case by case. *)
Lemma main_profile_outcome (m : Model) (df : DataFrame)
    (country_list : list string) (country_data : DataFrame) :
  NoDup (map label country_data) ->
  let profile := main_profile (Some m) (Some df) country_list w country_data in
  ~ In (st_render Footer) (trace profile) /\
  filter is_call_predict (trace profile) =
    (if Year_values_contain country_data (analysis_year w) then []
     else [call_predict [(selected_country w, analysis_year w)]]) /\
  (exists c,
     result (main_current_emissions (Some m) country_data
               (selected_country w) (analysis_year w)) = Return c /\
     In (st_render (Metric_current (analysis_year w) c)) (trace profile)) /\
  ((all_nan country_data /\
    (exists e, result profile = Raise e) /\
    (forall peak years, ~ In (st_render (Metric_peak peak years)) (trace profile)) /\
    ~ In (st_render Tips) (trace profile)) \/
   ((exists r, In r country_data /\ number (Per_Capita_CO2_kg r)) /\
    result profile = Return tt /\
    (exists R, In R country_data /\
       In (st_render (Metric_peak (Per_Capita_max country_data) [Year R]))
          (trace profile)) /\
    In (st_render Tips) (trace profile))).
Proof.
  intros Hlabels. cbv zeta.
  destruct (main_profile_cases (Some m) df country_list w country_data Hlabels)
    as (t0 & c & Hcur & Hcases).
  pose proof (main_current_emissions_trace (Some m) country_data
                (selected_country w) (analysis_year w)) as Ht0.
  cbv zeta in Ht0. rewrite Hcur in Ht0. cbn [trace fst] in Ht0.
  destruct Ht0 as (Hnorender & Hcalls).
  destruct Hcases as [(Hnan & e & ->)|(Hnum & R & chart & HinR & Hcmp & ->)];
    cbn [trace result fst snd].
  - split; [|split; [|split]].
    + intros Hin. apply in_app_or in Hin as [Hin|Hin];
        [now apply Hnorender in Hin|simpl in Hin; intuition discriminate].
    + rewrite filter_app, Hcalls. simpl. now rewrite app_nil_r.
    + exists c. rewrite Hcur. split; [reflexivity|].
      apply in_or_app. right. right. now left.
    + left. split; [exact Hnan|]. split; [now eexists|]. split.
      * intros peak years Hin. apply in_app_or in Hin as [Hin|Hin];
          [now apply Hnorender in Hin|simpl in Hin; intuition discriminate].
      * intros Hin. apply in_app_or in Hin as [Hin|Hin];
          [now apply Hnorender in Hin|simpl in Hin; intuition discriminate].
  - assert (Hchart : chart = [] \/
              exists cd, chart = [st_render (Comparison_chart cd);
                                  st_render Comparison_table]).
    { destruct (main_comparison_spec df country_list w)
        as (chart' & Hcmp' & [(-> & _)|(cd & -> & _)]);
        rewrite Hcmp in Hcmp'; injection Hcmp' as ->; [now left|right; now exists cd]. }
    split; [|split; [|split]].
    + intros Hin. apply in_app_or in Hin as [Hin|Hin];
        [now apply Hnorender in Hin|].
      apply in_app_or in Hin as [Hin|Hin];
        [simpl in Hin; intuition discriminate|].
      apply in_app_or in Hin as [Hin|Hin];
        [|simpl in Hin; intuition discriminate].
      destruct Hchart as [->|(cd & ->)]; simpl in Hin; intuition discriminate.
    + rewrite !filter_app, Hcalls.
      destruct Hchart as [->|(cd & ->)]; simpl; now rewrite app_nil_r.
    + exists c. rewrite Hcur. split; [reflexivity|].
      apply in_or_app. right. right. now left.
    + right. split; [exact Hnum|]. split; [reflexivity|]. split.
      * exists R. split; [exact HinR|].
        apply in_or_app. right. do 3 right. now left.
      * apply in_or_app. right. apply in_or_app. right.
        apply in_or_app. right. do 3 right. now left.
Qed.

End MainRun.

Section MainTheorems.

Lemma main_series (env : Env) (w : Widgets) m df cl :
  result (load_resources env) = Return (Some m, df, cl) ->
  exists recs,
    df = Some (with_RangeIndex 0 recs) /\
    NoDup (map label (get_country_data df (selected_country w))) /\
    (empty (get_country_data df (selected_country w)) = true <->
     get_country_data df (selected_country w) = []).
Proof.
  intros Hres.
  destruct (load_resources_resolved env m df cl Hres) as (recs & ->).
  exists recs. split; [reflexivity|]. split; [apply get_country_data_labels|].
  destruct (get_country_data _ _); simpl; split; congruence.
Qed.

End MainTheorems.

(** X14. Once a model is resolved, [main] ends normally exactly when two
    things hold: the series of the selected country is empty or holds a
    value that is a number (so the peak metric can be computed), and
    opening the table for the download button succeeds or fails with
    [FileNotFoundError], the one error that section handles. The footer is
    shown exactly when [main] ends normally: no earlier step shows it, and
    an uncaught error leaves the page without it. *)
Theorem main_ends_normally_iff
    (env : Env) (w : Widgets) (m : Model) (df : option DataFrame)
    (country_list : list string) :
  result (load_resources env) = Return (Some m, df, country_list) ->
  let country_data := get_country_data df (selected_country w) in
  (result (main env w) = Return tt <->
     (country_data = [] \/
      exists r, In r country_data /\ number (Per_Capita_CO2_kg r)) /\
     (forall e, open_csv_read env = Raise e -> is_FileNotFoundError e = true)) /\
  (In (st_render Footer) (trace (main env w)) <-> result (main env w) = Return tt).
Proof.
  intros Hres. cbv zeta.
  destruct (main_series env w m df country_list Hres)
    as (recs & -> & Hlabels & Hempty).
  rewrite (main_resolved env w m _ country_list Hres).
  cbn [result trace fst snd].
  destruct (main_download_trace env w) as (Hdfoot & _ & Hdres).
  pose proof (load_resources_shows_no_view env Footer) as Hlfoot.
  set (country_data :=
         get_country_data (Some (with_RangeIndex 0 recs)) (selected_country w)) in *.
  assert (Hshell : ~ In (st_render Footer)
            (map st_render
               [Title; Subheader; About; Select_country country_list; Slider_year]))
    by (simpl; intuition discriminate).
  destruct (empty country_data) eqn:Ecd; cbn [negb].
  - assert (Hnil : country_data = []) by now apply Hempty.
    cbn [ret result trace fst snd app].
    destruct (main_download env w) as [td [[]|e]]; cbn [result trace fst snd] in *.
    + split.
      * split; [intros _; split; [now left|now apply Hdres]|reflexivity].
      * split; [reflexivity|]. intros _.
        apply in_or_app. right. apply in_or_app. right.
        apply in_or_app. right. now left.
    + split.
      * split; [discriminate|]. intros [_ H]. apply Hdres in H. discriminate.
      * split; [|discriminate]. intros Hin.
        apply in_app_or in Hin as [Hin|Hin]; [contradiction|].
        apply in_app_or in Hin as [Hin|Hin]; [contradiction|].
        rewrite app_nil_r in Hin. contradiction.
  - assert (Hne : country_data <> [])
      by (intros Hnil; apply Hempty in Hnil; congruence).
    destruct (main_profile_outcome w m (with_RangeIndex 0 recs) country_list
                country_data Hlabels)
      as (Hpfoot & _ & _ & [(Hnan & (e & Hraise) & _)|(Hnum & Hret & _)]).
    + rewrite Hraise. split.
      * split; [discriminate|]. intros [[Hnil|(r & Hin & Hr)] _];
          [contradiction|]. unfold number in Hr. rewrite (Hnan r Hin) in Hr.
        discriminate.
      * split; [|discriminate]. intros Hin.
        apply in_app_or in Hin as [Hin|Hin]; [contradiction|].
        apply in_app_or in Hin as [Hin|Hin]; [contradiction|].
        rewrite app_nil_r in Hin. contradiction.
    + rewrite Hret.
      destruct (main_download env w) as [td [[]|e]]; cbn [result trace fst snd] in *.
      * split.
        -- split; [intros _; split; [now right|now apply Hdres]|reflexivity].
        -- split; [reflexivity|]. intros _.
           apply in_or_app. right. apply in_or_app. right.
           apply in_or_app. right. apply in_or_app. right. now left.
      * split.
        -- split; [discriminate|]. intros [_ H]. apply Hdres in H. discriminate.
        -- split; [|discriminate]. intros Hin.
           apply in_app_or in Hin as [Hin|Hin]; [contradiction|].
           apply in_app_or in Hin as [Hin|Hin]; [contradiction|].
           apply in_app_or in Hin as [Hin|Hin]; [contradiction|].
           rewrite app_nil_r in Hin. contradiction.
Qed.

Lemma main_ends_normally_iff_witness :
  let country_data := get_country_data (Some Scenario.df_AB) "A" in
  (result (main Scenario.env_rebuild_ok Scenario.widgets_A) = Return tt <->
     (country_data = [] \/
      exists r, In r country_data /\ number (Per_Capita_CO2_kg r)) /\
     (forall e, open_csv_read Scenario.env_rebuild_ok = Raise e ->
                is_FileNotFoundError e = true)) /\
  (In (st_render Footer) (trace (main Scenario.env_rebuild_ok Scenario.widgets_A)) <->
   result (main Scenario.env_rebuild_ok Scenario.widgets_A) = Return tt).
Proof.
  exact (main_ends_normally_iff Scenario.env_rebuild_ok Scenario.widgets_A
           (Scenario.constant_model 200.0%float) (Some Scenario.df_AB)
           ["A"; "B"] eq_refl).
Defined.

(** X15. Missing values stop the page. When a model is resolved and the
    selected country has rows whose values are all NaN, [main] shows the
    current-emissions metric and then raises at the peak metric, outside
    every handler: no peak, no recommendations, no download button and no
    footer are shown. *)
Theorem main_missing_values_stop_page
    (env : Env) (w : Widgets) (m : Model) (df : option DataFrame)
    (country_list : list string) :
  result (load_resources env) = Return (Some m, df, country_list) ->
  let country_data := get_country_data df (selected_country w) in
  country_data <> [] ->
  all_nan country_data ->
  (exists e, result (main env w) = Raise e) /\
  (exists c, In (st_render (Metric_current (analysis_year w) c))
                (trace (main env w))) /\
  (forall v, In (st_render v) (trace (main env w)) ->
     match v with
     | Metric_peak _ _ | Tips | Download_button | Footer => False
     | _ => True
     end).
Proof.
  intros Hres country_data Hne Hnan. subst country_data.
  destruct (main_series env w m df country_list Hres)
    as (recs & -> & Hlabels & Hempty).
  rewrite (main_resolved env w m _ country_list Hres).
  cbn [result trace fst snd].
  set (country_data :=
         get_country_data (Some (with_RangeIndex 0 recs)) (selected_country w)) in *.
  destruct (empty country_data) eqn:Ecd;
    [destruct Hempty as [Hempty _]; specialize (Hempty eq_refl); contradiction|].
  cbn [negb].
  destruct (main_profile_cases (Some m) (with_RangeIndex 0 recs) country_list w
              country_data Hlabels)
    as (t0 & c & Hcur & [(_ & e & ->)|((r & Hin & Hr) & _)]).
  - pose proof (main_current_emissions_trace (Some m) country_data
                  (selected_country w) (analysis_year w)) as Ht0.
    cbv zeta in Ht0. rewrite Hcur in Ht0. cbn [trace fst] in Ht0.
    destruct Ht0 as (Hnorender & _).
    cbn [result trace fst snd]. split; [now eexists|]. split.
    + exists c. apply in_or_app. right. apply in_or_app. right.
      apply in_or_app. left. apply in_or_app. right. right. now left.
    + intros v Hin.
      apply in_app_or in Hin as [Hin|Hin];
        [now apply load_resources_shows_no_view in Hin|].
      apply in_app_or in Hin as [Hin|Hin].
      { simpl in Hin.
        repeat (destruct Hin as [Hin|Hin];
                [injection Hin as <-; exact I|]).
        contradiction. }
      rewrite app_nil_r in Hin.
      apply in_app_or in Hin as [Hin|Hin]; [now apply Hnorender in Hin|].
      simpl in Hin.
      repeat (destruct Hin as [Hin|Hin];
              [injection Hin as <-; exact I|]).
      contradiction.
  - unfold number in Hr. rewrite (Hnan r Hin) in Hr. discriminate.
Qed.

Lemma main_missing_values_stop_page_witness :
  let w := mkWidgets "A" 2019 [] false in
  (exists e, result (main env_nan_data w) = Raise e) /\
  (exists c, In (st_render (Metric_current 2019 c))
                (trace (main env_nan_data w))) /\
  (forall v, In (st_render v) (trace (main env_nan_data w)) ->
     match v with
     | Metric_peak _ _ | Tips | Download_button | Footer => False
     | _ => True
     end).
Proof.
  apply (main_missing_values_stop_page env_nan_data
           (mkWidgets "A" 2019 [] false)
           (Scenario.constant_model 150.0%float)
           (Some (with_RangeIndex 0 records_nan)) ["A"] eq_refl).
  - discriminate.
  - intros r Hin. simpl in Hin.
    destruct Hin as [<-|[<-|[]]]; reflexivity.
Defined.

(** X16. Once a model is resolved, [main] itself asks the model at most
    once: beyond the calls [load_resources] made, [model.predict] is
    called exactly when the selected country has rows and none of them is
    for the analysis year, and then on the one-row frame of the selected
    country and the analysis year. The comparison, the targets and the
    download never call the model. *)
Theorem main_predict_calls
    (env : Env) (w : Widgets) (m : Model) (df : option DataFrame)
    (country_list : list string) :
  result (load_resources env) = Return (Some m, df, country_list) ->
  let country_data := get_country_data df (selected_country w) in
  filter is_call_predict (trace (main env w)) =
  filter is_call_predict (trace (load_resources env)) ++
  (if negb (empty country_data) &&
      negb (Year_values_contain country_data (analysis_year w))
   then [call_predict [(selected_country w, analysis_year w)]]
   else []).
Proof.
  intros Hres. cbv zeta.
  destruct (main_series env w m df country_list Hres)
    as (recs & -> & Hlabels & Hempty).
  rewrite (main_resolved env w m _ country_list Hres).
  cbn [result trace fst snd].
  destruct (main_download_trace env w) as (_ & Hdcalls & _).
  set (country_data :=
         get_country_data (Some (with_RangeIndex 0 recs)) (selected_country w)) in *.
  rewrite !filter_app. f_equal.
  change (filter is_call_predict
            (map st_render
               [Title; Subheader; About; Select_country country_list; Slider_year]))
    with (@nil event).
  cbn [app].
  assert (Htail : forall (o1 : outcome unit),
            filter is_call_predict
              match o1 with
              | Return _ =>
                  trace (main_download env w) ++
                  match result (main_download env w) with
                  | Return _ => [st_render Footer]
                  | Raise _ => []
                  end
              | Raise _ => []
              end = []).
  { intros [u|e]; [|reflexivity]. rewrite filter_app, Hdcalls.
    now destruct (result (main_download env w)). }
  rewrite Htail, app_nil_r.
  destruct (empty country_data) eqn:Ecd; cbn [negb andb]; [reflexivity|].
  destruct (main_profile_outcome w m (with_RangeIndex 0 recs) country_list
              country_data Hlabels) as (_ & -> & _).
  now destruct (Year_values_contain country_data (analysis_year w)).
Qed.

Lemma main_predict_calls_witness :
  filter is_call_predict (trace (main Scenario.env_rebuild_ok
                                   (mkWidgets "A" 2030 ["B"] false))) =
  filter is_call_predict (trace (load_resources Scenario.env_rebuild_ok)) ++
  (if negb (empty (get_country_data (Some Scenario.df_AB) "A")) &&
      negb (Year_values_contain (get_country_data (Some Scenario.df_AB) "A") 2030)
   then [call_predict [("A", 2030)]]
   else []).
Proof.
  exact (main_predict_calls Scenario.env_rebuild_ok
           (mkWidgets "A" 2030 ["B"] false)
           (Scenario.constant_model 200.0%float) (Some Scenario.df_AB)
           ["A"; "B"] eq_refl).
Defined.

(** X17. End to end: when a model is resolved and the table holds a row
    for the selected country and the analysis year, the metric [main]
    shows for that year carries the stored value of such a row of the
    table (of that very row when each (country, year) pair occurs once),
    not a prediction. *)
Theorem main_shows_stored_value
    (env : Env) (w : Widgets) (m : Model) (df : DataFrame)
    (country_list : list string) (r0 : Row) :
  result (load_resources env) = Return (Some m, Some df, country_list) ->
  In r0 df ->
  Country r0 = selected_country w ->
  Year r0 = analysis_year w ->
  (exists r,
     In r df /\ Country r = selected_country w /\ Year r = analysis_year w /\
     In (st_render (Metric_current (analysis_year w) (Per_Capita_CO2_kg r)))
        (trace (main env w))) /\
  (unique_country_year df ->
     In (st_render (Metric_current (analysis_year w) (Per_Capita_CO2_kg r0)))
        (trace (main env w))).
Proof.
  intros Hres Hin0 Hc0 Hy0.
  destruct (main_series env w m (Some df) country_list Hres)
    as (recs & Hdf & Hlabels & Hempty).
  assert (Hin0' : In r0 (get_country_data (Some df) (selected_country w)))
    by now apply get_country_data_In.
  assert (Hcontain : Year_values_contain
                       (get_country_data (Some df) (selected_country w))
                       (analysis_year w) = true)
    by (apply Year_values_contain_true; now exists r0).
  destruct (main_current_emissions_stored (Some m)
              (get_country_data (Some df) (selected_country w))
              (selected_country w) (analysis_year w) Hcontain)
    as (r & Hin & Hy & Hcur).
  assert (Hshown : In (st_render (Metric_current (analysis_year w)
                                    (Per_Capita_CO2_kg r)))
                      (trace (main env w))).
  { rewrite (main_resolved env w m _ country_list Hres).
    cbn [result trace fst snd].
    destruct (empty (get_country_data (Some df) (selected_country w))) eqn:Ecd.
    - destruct Hempty as [Hempty _]. rewrite (Hempty eq_refl) in Hin0'.
      contradiction.
    - cbn [negb]. injection Hdf as Hdf.
      destruct (main_profile_outcome w m df country_list
                  (get_country_data (Some df) (selected_country w)) Hlabels)
        as (_ & _ & (c & Hc & Hshown) & _).
      rewrite Hcur in Hc. unfold result in Hc. cbn [snd] in Hc.
      injection Hc as <-.
      apply in_or_app. right. apply in_or_app. right.
      apply in_or_app. now left. }
  apply get_country_data_In in Hin as [Hin Hc].
  split.
  - exists r. repeat split; assumption.
  - intros Hu. replace r0 with r; [exact Hshown|].
    apply (NoDup_map_In_inj (fun r => (Country r, Year r)) df); auto.
    simpl. congruence.
Qed.

Lemma main_shows_stored_value_witness :
  (exists r,
     In r Scenario.df_AB /\ Country r = "A" /\ Year r = 2019 /\
     In (st_render (Metric_current 2019 (Per_Capita_CO2_kg r)))
        (trace (main Scenario.env_rebuild_ok Scenario.widgets_A))) /\
  (unique_country_year Scenario.df_AB ->
     In (st_render (Metric_current 2019 100.0%float))
        (trace (main Scenario.env_rebuild_ok Scenario.widgets_A))).
Proof.
  refine (main_shows_stored_value Scenario.env_rebuild_ok Scenario.widgets_A
            (Scenario.constant_model 200.0%float) Scenario.df_AB ["A"; "B"]
            (mkRow 0 "A" 2019 100.0%float) eq_refl _ eq_refl eq_refl).
  simpl. now left.
Defined.

(** X18. The two metrics agree: when the analysis year is in the series
    and the value stored for it is a number, the historical peak shown
    beside it is a number too and is not below that value. *)
Theorem historical_peak_not_below_current
    (model : option Model) (country_data : DataFrame)
    (country : string) (year : Z) (c : float) :
  Year_values_contain country_data year = true ->
  result (main_current_emissions model country_data country year) = Return c ->
  number c ->
  number (Per_Capita_max country_data) /\
  (Per_Capita_max country_data <? c)%float = false.
Proof.
  intros Hcontain Hres Hnum.
  destruct (main_current_emissions_stored model country_data country year Hcontain)
    as (r & Hin & _ & Hcur).
  rewrite Hcur in Hres. unfold result in Hres. cbn [snd] in Hres.
  injection Hres as <-.
  destruct (Per_Capita_max_spec country_data r Hin Hnum) as (Hmax & _ & Hall).
  split; [exact Hmax|]. now apply Hall.
Qed.

Lemma historical_peak_not_below_current_witness :
  number (Per_Capita_max (get_country_data (Some Scenario.df_AB) "A")) /\
  (Per_Capita_max (get_country_data (Some Scenario.df_AB) "A") <? 100.0)%float
    = false.
Proof.
  exact (historical_peak_not_below_current None
           (get_country_data (Some Scenario.df_AB) "A") "A" 2019 100.0%float
           eq_refl eq_refl eq_refl).
Defined.

Module TipsFacts.

Import FloatOrderFacts Binary64Facts.

(** A non-negative number below [2 ** 1022] times [1.2], rounded, is not
    below the number: nothing at or below the number is above the
    product. *)
Lemma SFmul_1_2_not_below (a c : spec_float) :
  SpecFloat.valid_binary 53 1024 a = true ->
  SFleb (S754_zero false) a = true ->
  SFltb a (S754_finite false 4503599627370496 970) = true ->
  SFleb c a = true ->
  SFltb (SFmul 53 1024 a SF_1_2) c = false.
Proof.
  intros Hvalid H0 Hbound Hc.
  apply not_true_iff_false. rewrite SFltb_key. intros (_ & _ & Hlt).
  apply SFleb_key in Hc as (_ & _ & Hle). apply Hle. clear Hle.
  unfold SF_1_2 in Hlt.
  destruct a as [s|s| |s m e]; try discriminate H0;
    try (destruct s; discriminate).
  - cbn [SFmul key] in *. exact Hlt.
  - destruct s; [discriminate|].
    apply SFltb_key in Hbound as (_ & _ & Hbound).
    unfold lex_lt in Hbound. cbn [key] in Hbound.
    cbn [SpecFloat.valid_binary] in Hvalid.
    unfold bounded, canonical_mantissa, fexp, emin in Hvalid.
    apply andb_true_iff in Hvalid as [Hcan Hmax].
    apply Z.eqb_eq in Hcan. apply Z.leb_le in Hmax.
    pose proof (digits2_pos_bounds m) as Hd.
    assert (Hme : e <= 969 /\
                  ((e = -1074 /\ Zpos m < 2 ^ 53) \/
                   (-1074 < e /\ 2 ^ 52 <= Zpos m < 2 ^ 53))).
    { destruct (Z.compare_spec (-1074) e) as [Heq|Hl|Hg].
      - subst e. split; [lia|]. left. split; [reflexivity|].
        assert (2 ^ Zpos (digits2_pos m) <= 2 ^ 53)
          by (apply Z.pow_le_mono_r; lia).
        lia.
      - replace (Zpos (digits2_pos m)) with 53 in Hd by lia.
        split; [lia|]. right. lia.
      - lia. }
    clear Hcan Hmax Hd Hbound H0.
    destruct Hme as (Hmax & Hme).
    destruct (Z.lt_ge_cases (Zpos m * 5404319552844595) (2 ^ 105)) as [HP|HP];
      round_product ipattern:(Hr) m 5404319552844595%positive e (-52);
      revert Hlt; open_rounded Hr; intros Hlt;
      unfold lex_lt in *; cbn [key] in *;
      destruct (key c) as [[k1 k2] k3]; lia.
Qed.

End TipsFacts.

(** X19. [get_climate_tips] for a country at or below the average: when
    the average is not negative and below [2 ** 1022], and the current
    value is at most the average, the first tip is the one for countries
    performing better than average, never the one for emissions above
    average: in binary64 the product of the average and [1.2] does not
    round below the average. The four general tips follow. *)
Theorem get_climate_tips_at_or_below_average
    (country : string) (current_emissions avg_emissions : float) :
  (0 <=? avg_emissions)%float = true ->
  (avg_emissions <? tips_average_bound)%float = true ->
  (current_emissions <=? avg_emissions)%float = true ->
  get_climate_tips country current_emissions avg_emissions =
  tip_maintain country :: general_tips.
Proof.
  intros H0 Hbound Hc. unfold get_climate_tips.
  rewrite leb_spec in H0, Hc. rewrite ltb_spec in Hbound.
  change (Prim2SF 0) with (S754_zero false) in H0.
  change (Prim2SF tips_average_bound)
    with (S754_finite false 4503599627370496 970) in Hbound.
  rewrite ltb_spec, mul_spec. unfold SF64mul.
  change (Prim2SF 0x1.3333333333333p+0) with SF_1_2.
  change prec with 53. change emax with 1024.
  rewrite (TipsFacts.SFmul_1_2_not_below _ _
             (Prim2SF_valid avg_emissions) H0 Hbound Hc).
  reflexivity.
Qed.

Lemma get_climate_tips_at_or_below_average_witness :
  get_climate_tips "A" 100.0%float 150.0%float =
  tip_maintain "A" :: general_tips.
Proof.
  exact (get_climate_tips_at_or_below_average "A" 100.0%float 150.0%float
           eq_refl eq_refl eq_refl).
Defined.

(** X20. [get_climate_tips] always returns five tips: one of the two
    country tips, then the four general ones. When the current value or
    the average is missing (NaN), the comparison is false and the tip is
    the one for countries performing better than average. *)
Theorem get_climate_tips_shape
    (country : string) (current_emissions avg_emissions : float) :
  let tips := get_climate_tips country current_emissions avg_emissions in
  List.length tips = 5%nat /\
  (tips = tip_reduce country :: general_tips \/
   tips = tip_maintain country :: general_tips) /\
  (is_nan current_emissions = true \/ is_nan avg_emissions = true ->
   tips = tip_maintain country :: general_tips).
Proof.
  cbv zeta. unfold get_climate_tips. split; [|split].
  - now destruct (_ <? _)%float.
  - destruct (_ <? _)%float; [now left|now right].
  - intros Hnan.
    replace (avg_emissions * 0x1.3333333333333p+0 <? current_emissions)%float
      with false; [reflexivity|].
    symmetry. apply not_true_iff_false.
    rewrite FloatOrderFacts.ltb_key. intros (Hp & Hcur & _).
    destruct Hnan as [Hnan|Hnan]; [unfold number in Hcur; congruence|].
    apply FloatOrderFacts.number_spec in Hp. apply Hp.
    rewrite mul_spec.
    assert (Ha : Prim2SF avg_emissions = S754_nan).
    { unfold is_nan in Hnan. apply negb_true_iff in Hnan.
      destruct (Prim2SF avg_emissions) eqn:E; try reflexivity; exfalso;
        apply not_true_iff_false in Hnan; apply Hnan;
        rewrite eqb_spec, E; apply FloatOrderFacts.SFeqb_key;
        repeat split; discriminate. }
    rewrite Ha. reflexivity.
Qed.
